(** * QuoteScout: the entitlement gate, the dashboard's session lifecycle
      and the profile trigger

    A shallow embedding of the dashboard page
    ([saas-app/app/dashboard/page.tsx]) and of the Supabase schema (the SQL
    file with the [profiles] table and the [handle_new_user] trigger),
    followed by the properties of the specification that concern them.

    The dashboard is a React component: its [useState] cells are the fields
    of a record, and its asynchronous handlers are computations in a small
    monad that threads the component state and the browser location and
    logs every call that leaves the component (authentication provider,
    backend, [alert], router, location).  Each log entry keeps the
    component state at the moment of the call: for a call that is awaited,
    that is the state React renders while the answer is pending.

    The answers of the outside world come from an oracle indexed by the
    instant of the call (a clock that advances with every logged call), so
    a theorem quantified over the oracle covers every behaviour of the
    provider and of the backend.  The calls of the authentication client
    answer with a value and do not throw; a handler runs without other
    handlers or user input in between, and reads the form through the
    state it closed over when it was started. *)

From Stdlib Require Import ZArith NArith Ascii String.
From stdpp Require Import base option list gmap strings.

Open Scope Z_scope.

(** ** JavaScript strings *)

(** A JavaScript string is a sequence of UTF-16 code units. *)
Definition JsString := list N.

(** An ASCII literal of the source. *)
Definition js (s : string) : JsString :=
  N_of_ascii <$> list_ascii_of_string s.

(** The double quote, which occurs inside one message of the page. *)
Definition dquote : JsString := [34%N].

(** White space and line terminators of ECMAScript (what [trim] removes):
    TAB, LF, VT, FF, CR, SP, NBSP, the Unicode space separators, LS, PS and
    the byte order mark. *)
Definition is_white_space (c : N) : bool :=
  ((9 <=? c) && (c <=? 13) || (c =? 32) || (c =? 160) || (c =? 5760)
   || (8192 <=? c) && (c <=? 8202) || (c =? 8232) || (c =? 8233)
   || (c =? 8239) || (c =? 8287) || (c =? 12288) || (c =? 65279))%N.

Fixpoint trimStart (s : JsString) : JsString :=
  match s with
  | c :: s' => if is_white_space c then trimStart s' else s
  | [] => []
  end.

Definition trimEnd (s : JsString) : JsString :=
  reverse (trimStart (reverse s)).

(** [String.prototype.trim] *)
Definition trim (s : JsString) : JsString := trimEnd (trimStart s).

(** A string is truthy when it is not empty. *)
Definition truthy (s : JsString) : bool :=
  match s with [] => false | _ :: _ => true end.

(** ** The database schema *)

Module Schema.

Definition uuid := N.
Definition text := string.
Definition timestamptz := Z.

(** The columns of [auth.users] that the trigger reads.  The table belongs
    to the authentication service; its e-mail column is nullable. *)
Record auth_users_row := {
  au_id : uuid;
  au_email : option text
}.

(** [public.profiles] *)
Record profiles_row := {
  id : uuid;
  email : text;
  usage_count : Z;
  is_subscribed : bool;
  stripe_customer_id : option text;
  stripe_subscription_id : option text;
  created_at : timestamptz;
  updated_at : timestamptz
}.

Inductive input_type_value := book_title_value | text_snippet_value.

(** [public.quote_generations] *)
Record quote_generations_row := {
  qg_id : uuid;
  qg_user_id : uuid;
  qg_input_type : input_type_value;
  qg_book_title : option text;
  qg_author : option text;
  qg_input_text : option text;
  qg_quotes_data : option text;
  qg_created_at : timestamptz
}.

(** Every table is keyed by its primary key. *)
Record Database := {
  auth_users : gmap uuid auth_users_row;
  profiles : gmap uuid profiles_row;
  quote_generations : gmap uuid quote_generations_row
}.

(** [insert into public.profiles (id, email) values (i, e)]: the columns
    that are not listed take their defaults; the statement raises an
    error ([None]) on a NULL e-mail, on a taken primary key or when [i]
    is no row of [auth.users].  The [unique] column [stripe_customer_id]
    is NULL in the new row, and NULLs never conflict. *)
Definition insert_profiles_id_email
    (i : uuid) (e : option text) (now : timestamptz) (db : Database)
    : option Database :=
  match e with
  | None => None
  | Some e' =>
      match profiles db !! i, auth_users db !! i with
      | None, Some _ =>
          let row := {| id := i; email := e';
                        usage_count := 0;
                        is_subscribed := false;
                        stripe_customer_id := None;
                        stripe_subscription_id := None;
                        created_at := now;
                        updated_at := now |} in
          Some {| auth_users := auth_users db;
                  profiles := <[i := row]> (profiles db);
                  quote_generations := quote_generations db |}
      | _, _ => None
      end
  end.

(** The trigger function [public.handle_new_user()]. *)
Definition handle_new_user
    (new : auth_users_row) (now : timestamptz) (db : Database)
    : option Database :=
  insert_profiles_id_email (au_id new) (au_email new) now db.

(** Registration of an identity: the row goes into [auth.users] and the
    trigger [on_auth_user_created] runs [handle_new_user] after the insert,
    once for the row.  An error in the trigger aborts the statement.
    [auth.users] is declared by the authentication service, not by this
    schema, which only refers to its key [id]: the key is the one
    constraint of that table taken here, so [None] covers the failures
    that the schema causes, and the service may refuse a row for reasons
    of its own. *)
Definition insert_auth_users
    (new : auth_users_row) (now : timestamptz) (db : Database)
    : option Database :=
  match auth_users db !! au_id new with
  | Some _ => None
  | None =>
      handle_new_user new now
        {| auth_users := <[au_id new := new]> (auth_users db);
           profiles := profiles db;
           quote_generations := quote_generations db |}
  end.

End Schema.

(** ** The dashboard page *)

Module Dashboard.

(** *** Data *)

(** [usage_count] is a JSON number that carries the [integer] column of
    [profiles]. *)
Record Profile := {
  email : JsString;
  usage_count : Z;
  is_subscribed : bool
}.

Record HistoryItem := {
  hi_id : JsString;
  hi_input_type : JsString;
  hi_book_title : option JsString;
  hi_author : option JsString;
  hi_created_at : JsString
}.

(** The union type ['book_title' | 'text_snippet']. *)
Inductive InputType := book_title | text_snippet.

(** What the page reads of the provider's user object. *)
Record User := {
  user_id : JsString;
  user_email : option JsString
}.

(** The [useState] cells of [Dashboard]. *)
Record State := {
  user : option User;
  profile : option Profile;
  history : list HistoryItem;
  loading : bool;
  generating : bool;
  upgrading : bool;
  showSuccess : bool;
  inputType : InputType;
  bookTitle : JsString;
  author : JsString;
  snippet : JsString
}.

(** The initial values given to [useState]. *)
Definition initial_state : State :=
  {| user := None; profile := None; history := [];
     loading := true; generating := false; upgrading := false;
     showSuccess := false;
     inputType := book_title; bookTitle := []; author := []; snippet := [] |}.

Definition with_user (v : option User) (s : State) : State :=
  {| user := v; profile := profile s; history := history s;
     loading := loading s; generating := generating s;
     upgrading := upgrading s; showSuccess := showSuccess s;
     inputType := inputType s; bookTitle := bookTitle s;
     author := author s; snippet := snippet s |}.

Definition with_profile (v : option Profile) (s : State) : State :=
  {| user := user s; profile := v; history := history s;
     loading := loading s; generating := generating s;
     upgrading := upgrading s; showSuccess := showSuccess s;
     inputType := inputType s; bookTitle := bookTitle s;
     author := author s; snippet := snippet s |}.

Definition with_history (v : list HistoryItem) (s : State) : State :=
  {| user := user s; profile := profile s; history := v;
     loading := loading s; generating := generating s;
     upgrading := upgrading s; showSuccess := showSuccess s;
     inputType := inputType s; bookTitle := bookTitle s;
     author := author s; snippet := snippet s |}.

Definition with_loading (v : bool) (s : State) : State :=
  {| user := user s; profile := profile s; history := history s;
     loading := v; generating := generating s;
     upgrading := upgrading s; showSuccess := showSuccess s;
     inputType := inputType s; bookTitle := bookTitle s;
     author := author s; snippet := snippet s |}.

Definition with_generating (v : bool) (s : State) : State :=
  {| user := user s; profile := profile s; history := history s;
     loading := loading s; generating := v;
     upgrading := upgrading s; showSuccess := showSuccess s;
     inputType := inputType s; bookTitle := bookTitle s;
     author := author s; snippet := snippet s |}.

Definition with_upgrading (v : bool) (s : State) : State :=
  {| user := user s; profile := profile s; history := history s;
     loading := loading s; generating := generating s;
     upgrading := v; showSuccess := showSuccess s;
     inputType := inputType s; bookTitle := bookTitle s;
     author := author s; snippet := snippet s |}.

Definition with_showSuccess (v : bool) (s : State) : State :=
  {| user := user s; profile := profile s; history := history s;
     loading := loading s; generating := generating s;
     upgrading := upgrading s; showSuccess := v;
     inputType := inputType s; bookTitle := bookTitle s;
     author := author s; snippet := snippet s |}.

(** *** Derived values (lines 177-178) *)

(** [profile?.usage_count ?? 0] *)
Definition usageCount (s : State) : Z :=
  match profile s with
  | Some p => usage_count p
  | None => 0
  end.

(** [profile?.is_subscribed || usageCount < 1]: without a profile the left
    operand is [undefined], which is falsy. *)
Definition canGenerate (s : State) : bool :=
  match profile s with
  | Some p => is_subscribed p
  | None => false
  end || (usageCount s <? 1).

(** *** The outside world *)

Record Session := { access_token : JsString }.

(** The answer of [supabase.auth.getUser()]: [{ data: { user }, error }]. *)
Record GetUserResult := {
  data_user : option User;
  error : option JsString
}.

Inductive Method := GET | POST.

(** The JSON body of [POST /generate-quotes]. *)
Record GenerateBody := {
  body_input_type : InputType;
  body_book_title : JsString;
  body_author : JsString;
  body_text_snippet : JsString
}.

Record Request := {
  url : JsString;
  method : Method;
  headers : list (JsString * JsString);
  body : option GenerateBody
}.

(** A response: its status and what reading its body gives. *)
Record Response (A : Type) := {
  status : N;
  payload : A
}.
Arguments status {A} _.
Arguments payload {A} _.

(** [Response.ok] *)
Definition ok {A} (res : Response A) : bool :=
  ((200 <=? status res) && (status res <=? 299))%N.

(** The promise returned by [fetch] either rejects (the request never got
    an answer) or resolves to a response. *)
Inductive Fetched (A : Type) :=
| rejected
| resolved (res : Response A).
Arguments rejected {A}.
Arguments resolved {A} _.

(** What [await res.json()] gives where the page goes on to read a
    property of the value: the promise rejects (the body is not JSON), or
    it resolves to [null], whose properties cannot be read, or to another
    value. *)
Inductive JsonRead (A : Type) :=
| not_json
| json_null
| json_value (a : A).
Arguments not_json {A}.
Arguments json_null {A}.
Arguments json_value {A} _.

(** The [detail] of a JSON value, as the template literal prints it;
    [None] when the value has no such property ([undefined]). *)
Record ErrorJson := { detail : option JsString }.

(** The [url] of a JSON value, as the text that the assignment to
    [window.location.href] makes of it; [None] when the property is
    missing or holds [null], [false] or [0]. *)
Record CheckoutJson := { checkout_url : option JsString }.

Definition Blob := list N.

(** The body of an answer to [POST /generate-quotes] is read with
    [res.json()] on an error status and with [res.blob()] otherwise;
    [reply_blob] is [None] when [res.blob()] rejects. *)
Record GenerateReply := {
  reply_json : JsonRead ErrorJson;
  reply_blob : option Blob
}.

(** The environment of the page: the configured backend address and, for
    each service, the answer it gives to a call made at a given instant.
    For [/profile] and [/history] the payload is [None] when [res.json()]
    rejects.  [overtakes t] is the order of arrival for the two reads that
    [Promise.all] awaits from the instant [t] on, when one of them fails:
    whether the other one had come to its end by then. *)
Record Env := {
  BACKEND : JsString;
  supabase_auth_getUser : nat -> GetUserResult;
  supabase_auth_getSession : nat -> option Session;
  backend_profile : nat -> Request -> Fetched (option Profile);
  backend_history : nat -> Request -> Fetched (option (list HistoryItem));
  backend_generate : nat -> Request -> Fetched GenerateReply;
  backend_checkout : nat -> Request -> Fetched (JsonRead CheckoutJson);
  overtakes : nat -> bool
}.

(** Calls that leave the component. *)
Inductive Event :=
| getUser (answer : GetUserResult)
| getSession (answer : option Session)
| signOut
| fetch (req : Request)
| alert (msg : JsString)
| router_push (href : JsString)
| replaceState (href : JsString)
| location_href (href : JsString)
| download (blob : Blob) (title : JsString).

(** [window.location]: the path and the query as [URLSearchParams] reads
    it, a sequence of key and value pairs. *)
Record Location := {
  pathname : JsString;
  search : list (JsString * JsString)
}.

Record World := {
  state : State;
  location : Location;
  clock : nat
}.

(** A log entry: the component state when the call was made, and the
    call. *)
Definition Entry : Type := State * Event.

(** *** The monad of handlers *)

Inductive Completion (A : Type) :=
| normal (a : A)
| thrown.
Arguments normal {A} _.
Arguments thrown {A}.

Record Run (A : Type) := {
  completion : Completion A;
  final : World;
  trace : list Entry
}.
Arguments completion {A} _.
Arguments final {A} _.
Arguments trace {A} _.

Definition Async (A : Type) : Type := World -> Run A.

#[export] Instance Async_ret : MRet Async := fun A a w =>
  {| completion := normal a; final := w; trace := [] |}.

#[export] Instance Async_bind : MBind Async := fun A B f m w =>
  match m w with
  | {| completion := normal a; final := w1; trace := t1 |} =>
      match f a w1 with
      | {| completion := c; final := w2; trace := t2 |} =>
          {| completion := c; final := w2; trace := t1 ++ t2 |}
      end
  | {| completion := thrown; final := w1; trace := t1 |} =>
      {| completion := thrown; final := w1; trace := t1 |}
  end.

Definition throw {A} : Async A := fun w =>
  {| completion := thrown; final := w; trace := [] |}.

Definition get_state : Async State := fun w =>
  {| completion := normal (state w); final := w; trace := [] |}.

Definition get_location : Async Location := fun w =>
  {| completion := normal (location w); final := w; trace := [] |}.

Definition get_clock : Async nat := fun w =>
  {| completion := normal (clock w); final := w; trace := [] |}.

Definition modify (f : State -> State) : Async unit := fun w =>
  {| completion := normal tt;
     final := {| state := f (state w); location := location w;
                 clock := clock w |};
     trace := [] |}.

Definition set_location (l : Location) : Async unit := fun w =>
  {| completion := normal tt;
     final := {| state := state w; location := l; clock := clock w |};
     trace := [] |}.

(** A call leaves the component: it is logged with the current state and
    the clock advances. *)
Definition emit (e : Event) : Async unit := fun w =>
  {| completion := normal tt;
     final := {| state := state w; location := location w;
                 clock := S (clock w) |};
     trace := [(state w, e)] |}.

(** [try { m } catch { h }] *)
Definition try_catch {A} (m h : Async A) : Async A := fun w =>
  match m w with
  | {| completion := normal a; final := w1; trace := t1 |} =>
      {| completion := normal a; final := w1; trace := t1 |}
  | {| completion := thrown; final := w1; trace := t1 |} =>
      match h w1 with
      | {| completion := c; final := w2; trace := t2 |} =>
          {| completion := c; final := w2; trace := t1 ++ t2 |}
      end
  end.

(** [try { m } finally { f }] *)
Definition try_finally {A} (m : Async A) (f : Async unit) : Async A := fun w =>
  match m w with
  | {| completion := c; final := w1; trace := t1 |} =>
      match f w1 with
      | {| completion := normal _; final := w2; trace := t2 |} =>
          {| completion := c; final := w2; trace := t1 ++ t2 |}
      | {| completion := thrown; final := w2; trace := t2 |} =>
          {| completion := thrown; final := w2; trace := t1 ++ t2 |}
      end
  end.

(** Runs [m] and hands back how it completed. *)
Definition settle {A} (m : Async A) : Async (Completion A) := fun w =>
  match m w with
  | {| completion := c; final := w1; trace := t1 |} =>
      {| completion := normal c; final := w1; trace := t1 |}
  end.

(** [await Promise.all([f1(..), f2(..)])] for two asynchronous functions,
    each given as its synchronous start (up to its first [await], which
    yields the pending promise) and its continuation.  Both starts run
    before either continuation.  When both continuations come to their
    end, the wait ends after both (they write different cells, so their
    order does not show).  When one fails, the wait ends by a throw at
    that moment: what the other one does is part of the run only if it
    was done by then ([done_first]); otherwise it is still in flight when
    the caller goes on, and writes its cell after the run.  A
    continuation that fails is taken to fail before it writes, as those
    of [fetchProfile] and [fetchHistory] do. *)
Definition Promise_all2_wait (done_first : bool)
    (resume1 resume2 : Async unit) : Async unit :=
  fun w =>
    match resume1 w with
    | {| completion := normal _; final := w1; trace := t1 |} =>
        match resume2 w1 with
        | {| completion := normal _; final := w2; trace := t2 |} =>
            {| completion := normal tt; final := w2; trace := t1 ++ t2 |}
        | {| completion := thrown; final := _; trace := _ |} =>
            if done_first
            then {| completion := thrown; final := w1; trace := t1 |}
            else {| completion := thrown; final := w; trace := [] |}
        end
    | {| completion := thrown; final := _; trace := _ |} =>
        match resume2 w with
        | {| completion := normal _; final := w2; trace := t2 |} =>
            if done_first
            then {| completion := thrown; final := w2; trace := t2 |}
            else {| completion := thrown; final := w; trace := [] |}
        | {| completion := thrown; final := _; trace := _ |} =>
            {| completion := thrown; final := w; trace := [] |}
        end
    end.

Definition Promise_all2 {A B} (done_first : bool)
    (start1 : Async A) (resume1 : A -> Async unit)
    (start2 : Async B) (resume2 : B -> Async unit) : Async unit :=
  p1 ← start1;
  p2 ← start2;
  Promise_all2_wait done_first (resume1 p1) (resume2 p2).

(** *** Helpers of the page (lines 42-59) *)

Definition setUser (v : option User) : Async unit := modify (with_user v).
Definition setProfile (v : option Profile) : Async unit := modify (with_profile v).
Definition setHistory (v : list HistoryItem) : Async unit := modify (with_history v).
Definition setLoading (v : bool) : Async unit := modify (with_loading v).
Definition setGenerating (v : bool) : Async unit := modify (with_generating v).
Definition setUpgrading (v : bool) : Async unit := modify (with_upgrading v).
Definition setShowSuccess (v : bool) : Async unit := modify (with_showSuccess v).

(** [await supabase.auth.getUser()] *)
Definition auth_getUser (env : Env) : Async GetUserResult :=
  t ← get_clock;
  let r := supabase_auth_getUser env t in
  emit (getUser r);; mret r.

(** [await supabase.auth.getSession()] *)
Definition auth_getSession (env : Env) : Async (option Session) :=
  t ← get_clock;
  let r := supabase_auth_getSession env t in
  emit (getSession r);; mret r.

(** [session?.access_token ?? ''] *)
Definition token_of (session : option Session) : JsString :=
  match session with
  | Some s => access_token s
  | None => []
  end.

Definition getToken (env : Env) : Async JsString :=
  session ← auth_getSession env;
  mret (token_of session).

(** [{ Authorization: `Bearer ${token}` }] *)
Definition Authorization (token : JsString) : JsString * JsString :=
  (js "Authorization", js "Bearer " ++ token).

(** The call [fetch(req)] up to the promise it returns. *)
Definition fetch_start {A} (oracle : nat -> Request -> Fetched A)
    (req : Request) : Async (Fetched A) :=
  t ← get_clock;
  emit (fetch req);; mret (oracle t req).

(** [await] on the promise of a [fetch]. *)
Definition await {A} (p : Fetched A) : Async (Response A) :=
  match p with
  | rejected => throw
  | resolved res => mret res
  end.

(** [await] on a body read, which rejects when there is nothing to read. *)
Definition await_body {A} (b : option A) : Async A :=
  match b with
  | None => throw
  | Some a => mret a
  end.

Definition profile_request (env : Env) (token : JsString) : Request :=
  {| url := BACKEND env ++ js "/profile"; method := GET;
     headers := [Authorization token]; body := None |}.

Definition fetchProfile_resume (p : Fetched (option Profile)) : Async unit :=
  res ← await p;
  if ok res then
    v ← await_body (payload res);
    setProfile (Some v)
  else mret tt.

Definition fetchProfile (env : Env) (token : JsString) : Async unit :=
  p ← fetch_start (backend_profile env) (profile_request env token);
  fetchProfile_resume p.

Definition history_request (env : Env) (token : JsString) : Request :=
  {| url := BACKEND env ++ js "/history"; method := GET;
     headers := [Authorization token]; body := None |}.

Definition fetchHistory_resume
    (p : Fetched (option (list HistoryItem))) : Async unit :=
  res ← await p;
  if ok res then
    v ← await_body (payload res);
    setHistory v
  else mret tt.

Definition fetchHistory (env : Env) (token : JsString) : Async unit :=
  p ← fetch_start (backend_history env) (history_request env token);
  fetchHistory_resume p.

(** [await Promise.all([fetchProfile(token), fetchHistory(token)])] *)
Definition fetchProfile_and_History (env : Env) (token : JsString)
    : Async unit :=
  t ← get_clock;
  Promise_all2 (overtakes env t)
    (fetch_start (backend_profile env) (profile_request env token))
    fetchProfile_resume
    (fetch_start (backend_history env) (history_request env token))
    fetchHistory_resume.

(** *** init: the effect run when the page is mounted (lines 63-81) *)

(** [URLSearchParams.get]: the first value given to the key. *)
Fixpoint params_get (k : JsString) (params : list (JsString * JsString))
    : option JsString :=
  match params with
  | [] => None
  | (k', v) :: rest => if decide (k' = k) then Some v else params_get k rest
  end.

(** [params.get('success') === 'true'] *)
Definition success_param (l : Location) : bool :=
  bool_decide (params_get (js "success") (search l) = Some (js "true")).

(** [window.history.replaceState({}, '', href)] for a path without query. *)
Definition history_replaceState (href : JsString) : Async unit :=
  emit (replaceState href);;
  set_location {| pathname := href; search := [] |}.

Definition init (env : Env) : Async unit :=
  r ← auth_getUser env;
  match error r, data_user r with
  | None, Some u =>
      setUser (Some u);;
      token ← getToken env;
      fetchProfile_and_History env token;;
      setLoading false;;
      l ← get_location;
      if success_param l then
        setShowSuccess true;;
        fetchProfile env token;;
        history_replaceState (js "/dashboard")
      else mret tt
  | _, _ => emit (router_push (js "/"))
  end.

(** *** generate (lines 85-138) *)

Definition generate_request (env : Env) (token : JsString) (s : State)
    : Request :=
  {| url := BACKEND env ++ js "/generate-quotes"; method := POST;
     headers := [(js "Content-Type", js "application/json");
                 Authorization token];
     body := Some {| body_input_type := inputType s;
                     body_book_title := bookTitle s;
                     body_author := author s;
                     body_text_snippet := snippet s |} |}.

Definition msg_enter_title : JsString := js "Please enter a book title.".
Definition msg_paste_snippet : JsString :=
  js "Please paste or upload a text snippet.".
Definition msg_upgrade : JsString :=
  js "Free tier limit reached. Click " ++ dquote ++ js "Upgrade to Pro"
     ++ dquote ++ js " to continue.".
Definition msg_went_wrong_retry : JsString :=
  js "Something went wrong. Please try again.".

(** [`Error: ${err.detail}`] *)
Definition msg_error (err : ErrorJson) : JsString :=
  js "Error: " ++ match detail err with
                  | Some d => d
                  | None => js "undefined"
                  end.

(** [const err = await res.json().catch(() => ({ detail: 'Unknown
    error' })); alert(`Error: ${err.detail}`)]: a body that is not JSON
    gives the default object; reading [detail] of [null] throws. *)
Definition alert_error (r : GenerateReply) : Async unit :=
  match reply_json r with
  | not_json => emit (alert (msg_error {| detail := Some (js "Unknown error") |}))
  | json_null => throw
  | json_value err => emit (alert (msg_error err))
  end.

(** The two guards at the head of [handleGenerate]. *)
Definition missing_title (s : State) : bool :=
  match inputType s with
  | book_title => negb (truthy (trim (bookTitle s)))
  | text_snippet => false
  end.

Definition missing_snippet (s : State) : bool :=
  match inputType s with
  | text_snippet => negb (truthy (trim (snippet s)))
  | book_title => false
  end.

(** The body of the [try] block.  [s] is the state the handler closed
    over.  The browser calls that save the PDF are one [download] event;
    the file name, which the browser derives from the title, is left
    uncomputed. *)
Definition generate_try (env : Env) (s : State) : Async unit :=
  token ← getToken env;
  p ← fetch_start (backend_generate env) (generate_request env token s);
  res ← await p;
  if (status res =? 402)%N then emit (alert msg_upgrade)
  else if negb (ok res) then alert_error (payload res)
  else
    blob ← await_body (reply_blob (payload res));
    emit (download blob (bookTitle s));;
    t ← getToken env;
    fetchProfile_and_History env t.

Definition handleGenerate (env : Env) : Async unit :=
  s ← get_state;
  if missing_title s then emit (alert msg_enter_title)
  else if missing_snippet s then emit (alert msg_paste_snippet)
  else
    setGenerating true;;
    try_finally
      (try_catch (generate_try env s) (emit (alert msg_went_wrong_retry)))
      (setGenerating false).

(** *** upgrade and logout (lines 152-173) *)

Definition checkout_request (env : Env) (token : JsString) : Request :=
  {| url := BACKEND env ++ js "/create-checkout-session"; method := POST;
     headers := [Authorization token]; body := None |}.

(** The body of the [try] block: [await res.json()] throws on a body
    that is not JSON, and reading [data.url] throws on [null]. *)
Definition upgrade_try (env : Env) : Async unit :=
  token ← getToken env;
  p ← fetch_start (backend_checkout env) (checkout_request env token);
  res ← await p;
  match payload res with
  | not_json => throw
  | json_null => throw
  | json_value data =>
      match checkout_url data with
      | Some u =>
          if truthy u then emit (location_href u)
          else emit (alert (js "Checkout failed. Please try again."))
      | None => emit (alert (js "Checkout failed. Please try again."))
      end
  end.

Definition handleUpgrade (env : Env) : Async unit :=
  setUpgrading true;;
  try_finally
    (try_catch (upgrade_try env) (emit (alert (js "Something went wrong."))))
    (setUpgrading false).

Definition handleLogout : Async unit :=
  emit signOut;;
  emit (router_push (js "/")).

(** *** render (lines 182-397) *)

Inductive UsageBanner := free_generation_left | free_generation_used.

Inductive ActionButton :=
| GenerateButton (disabled : bool)
| UpgradeButton (disabled : bool).

(** What the dashboard shows once it is loaded: the PRO badge, the e-mail
    in the header, the two banners, the form for the chosen input type,
    the action button and the history. *)
Record DashboardView := {
  pro_badge : bool;
  header_email : option JsString;
  success_banner : bool;
  usage_banner : option UsageBanner;
  form : InputType;
  action : ActionButton;
  history_rows : list HistoryItem
}.

Inductive View :=
| LoadingView
| Loaded (v : DashboardView).

Definition subscribed (s : State) : bool :=
  match profile s with
  | Some p => is_subscribed p
  | None => false
  end.

Definition render (s : State) : View :=
  if loading s then LoadingView
  else
    Loaded
      {| pro_badge := subscribed s;
         header_email := u ← user s; user_email u;
         success_banner := showSuccess s;
         usage_banner :=
           if subscribed s then None
           else Some (if usageCount s =? 0 then free_generation_left
                      else free_generation_used);
         form := inputType s;
         action :=
           if canGenerate s then GenerateButton (generating s)
           else UpgradeButton (upgrading s);
         history_rows := history s |}.

(** *** Reading a log *)

(** The backend requests of a log, in order. *)
Fixpoint requests (l : list Entry) : list Request :=
  match l with
  | [] => []
  | (_, fetch req) :: l' => req :: requests l'
  | _ :: l' => requests l'
  end.

(** The messages shown with [alert], in order. *)
Fixpoint alerts (l : list Entry) : list JsString :=
  match l with
  | [] => []
  | (_, alert m) :: l' => m :: alerts l'
  | _ :: l' => alerts l'
  end.

(** *** Notions used to state the properties *)

(** The provider's answer lets the page in: [!(error || !user)]. *)
Definition authenticated (a : GetUserResult) : bool :=
  match error a, data_user a with
  | None, Some _ => true
  | _, _ => false
  end.

(** The continuation of [fetchProfile] or [fetchHistory] runs to its end
    on this answer: the promise of [fetch] resolves and, on an ok status,
    the body is JSON. *)
Definition settles {A} (p : Fetched (option A)) : bool :=
  match p with
  | rejected => false
  | resolved res =>
      if ok res then match payload res with Some _ => true | None => false end
      else true
  end.

(** The answer is a response with an error status. *)
Definition not_ok {A} (p : Fetched A) : bool :=
  match p with
  | rejected => false
  | resolved res => negb (ok res)
  end.

(** The backend's answer to the request that [handleGenerate] sends when
    it is started in [w] (the token is read at [clock w], the request
    leaves at the next instant). *)
Definition generation_outcome (env : Env) (w : World)
    : Fetched GenerateReply :=
  backend_generate env (S (clock w))
    (generate_request env (token_of (supabase_auth_getSession env (clock w)))
       (state w)).

(** The generation call succeeded: an ok response whose body could be read
    as a blob.  Every other outcome is a failure. *)
Definition generation_succeeded (p : Fetched GenerateReply) : bool :=
  match p with
  | rejected => false
  | resolved res =>
      ok res && match reply_blob (payload res) with
                | Some _ => true
                | None => false
                end
  end.

(** The payment-required signal: a response with status 402. *)
Definition payment_required (p : Fetched GenerateReply) : bool :=
  match p with
  | rejected => false
  | resolved res => (status res =? 402)%N
  end.

(** The request carries [Authorization: Bearer token]. *)
Definition carries_bearer (token : JsString) (req : Request) : bool :=
  bool_decide (Authorization token ∈ headers req).

(** Every backend request of the log carries the bearer made from the
    answer of the latest [getSession] before it ([cur], when there is
    one). *)
Fixpoint bearer_follows_session (cur : option JsString) (l : list Entry)
    : bool :=
  match l with
  | [] => true
  | (_, getSession a) :: l' => bearer_follows_session (Some (token_of a)) l'
  | (_, fetch req) :: l' =>
      match cur with
      | Some token => carries_bearer token req
      | None => false
      end && bearer_follows_session cur l'
  | _ :: l' => bearer_follows_session cur l'
  end.

(** Every backend request of the log was sent from a state that holds a
    user. *)
Fixpoint requests_have_user (l : list Entry) : bool :=
  match l with
  | [] => true
  | (s, fetch _) :: l' =>
      match user s with Some _ => true | None => false end
      && requests_have_user l'
  | _ :: l' => requests_have_user l'
  end.

(** The page as it is mounted. *)
Definition mount (l : Location) (c : nat) : World :=
  {| state := initial_state; location := l; clock := c |}.

End Dashboard.

(** ** Sample inputs *)

Module Samples.
Import Dashboard.

Definition reader : User :=
  {| user_id := js "u-1"; user_email := Some (js "reader@example.org") |}.

Definition reader_session : Session := {| access_token := js "tok-1" |}.

Definition free_profile (n : Z) : Profile :=
  {| email := js "reader@example.org"; usage_count := n;
     is_subscribed := false |}.

Definition respond {A} (st : N) (a : A) : Fetched A :=
  resolved {| status := st; payload := a |}.

(** A backend that answers every call the same way, whatever the instant
    and the request. *)
Definition steady_env
    (who : GetUserResult) (sess : option Session)
    (prof : Fetched (option Profile))
    (gen : Fetched GenerateReply) : Env :=
  {| BACKEND := js "https://api.example.org";
     supabase_auth_getUser := fun _ => who;
     supabase_auth_getSession := fun _ => sess;
     backend_profile := fun _ _ => prof;
     backend_history := fun _ _ => respond 200 (Some []);
     backend_generate := fun _ _ => gen;
     backend_checkout :=
       fun _ _ => respond 200 (json_value {| checkout_url := None |});
     overtakes := fun _ => false |}.

Definition signed_in : GetUserResult :=
  {| data_user := Some reader; error := None |}.

Definition pdf : GenerateReply :=
  {| reply_json := not_json; reply_blob := Some [37; 80; 68; 70]%N |}.

Definition error_reply (d : string) : GenerateReply :=
  {| reply_json := json_value {| detail := Some (js d) |};
     reply_blob := Some [] |}.

(** The dashboard, loaded, with a title typed in. *)
Definition ready (p : option Profile) : World :=
  {| state := {| user := Some reader; profile := p; history := [];
                 loading := false; generating := false; upgrading := false;
                 showSuccess := false;
                 inputType := book_title; bookTitle := js "Emma";
                 author := []; snippet := [] |};
     location := {| pathname := js "/dashboard"; search := [] |};
     clock := 10 |}.

(** A backend that works, but for the call to [/profile] made at the
    instant [t0], which is rejected (a passing network failure). *)
Definition profile_lost_at (t0 : nat)
    (prof : Fetched (option Profile)) : Env :=
  {| BACKEND := js "https://api.example.org";
     supabase_auth_getUser := fun _ => signed_in;
     supabase_auth_getSession := fun _ => Some reader_session;
     backend_profile := fun t _ => if (t =? t0)%nat then rejected else prof;
     backend_history := fun _ _ => respond 200 (Some []);
     backend_generate := fun _ _ => respond 200 pdf;
     backend_checkout :=
       fun _ _ => respond 200 (json_value {| checkout_url := None |});
     overtakes := fun _ => false |}.

(** The location on return from the checkout. *)
Definition checkout_return : Location :=
  {| pathname := js "/dashboard"; search := [(js "success", js "true")] |}.

(** The first identity of an empty database. *)
Definition first_identity : Schema.auth_users_row :=
  {| Schema.au_id := 7%N; Schema.au_email := Some "reader@example.org"%string |}.

Definition empty_database : Schema.Database :=
  {| Schema.auth_users := ∅; Schema.profiles := ∅;
     Schema.quote_generations := ∅ |}.

Definition first_registration : Schema.Database :=
  {| Schema.auth_users := {[ 7%N := first_identity ]};
     Schema.profiles :=
       {[ 7%N := {| Schema.id := 7%N;
                    Schema.email := "reader@example.org"%string;
                    Schema.usage_count := 0;
                    Schema.is_subscribed := false;
                    Schema.stripe_customer_id := None;
                    Schema.stripe_subscription_id := None;
                    Schema.created_at := 1000;
                    Schema.updated_at := 1000 |} ]};
     Schema.quote_generations := ∅ |}.

End Samples.

(** ** Running a handler symbolically *)

Import Dashboard.

(** Unfolds the handlers and the monad, leaving the oracle answers and the
    tests on them in place. *)
Ltac run :=
  cbv [init handleGenerate handleUpgrade handleLogout generate_try upgrade_try
       fetchProfile fetchHistory fetchProfile_and_History Promise_all2
       Promise_all2_wait
       fetchProfile_resume fetchHistory_resume fetch_start await await_body
       alert_error
       getToken auth_getSession auth_getUser history_replaceState
       setUser setProfile setHistory setLoading setGenerating setUpgrading
       setShowSuccess modify emit throw get_state get_location get_clock
       set_location settle try_catch try_finally mbind mret Async_bind
       Async_ret completion final trace state location clock mount app
       requests alerts bearer_follows_session requests_have_user].

(** Case analysis on the first test that blocks the run. *)
Ltac branch :=
  match goal with
  | |- context [match ?x with _ => _ end] =>
      lazymatch x with
      | context [match _ with _ => _ end] => fail
      | _ => destruct x eqn:?
      end
  end.

Ltac explore := run; repeat (branch; run).

(** Computes the cells of the states met along a run. *)
Ltac cells :=
  cbv [with_user with_profile with_history with_loading with_generating
       with_upgrading with_showSuccess initial_state
       user profile history loading generating upgrading showSuccess
       inputType bookTitle author snippet].

Ltac explore_cells := run; cells; repeat (branch; run; cells).


(** Rewrites the hypotheses on the answers of the backend with the answer
    taken in the current branch. *)
Ltac use_answers :=
  repeat match goal with
    | E : ?call = _, H : context [?call] |- _ =>
        lazymatch call with
        | backend_profile _ _ _ => rewrite E in H
        | backend_history _ _ _ => rewrite E in H
        | backend_generate _ _ _ => rewrite E in H
        end
    end.

(** ** Further notions for the dashboard *)

(** The profile cell after the continuation of [fetchProfile] has run on
    the answer [p]: replaced when the response is ok and its body is JSON,
    kept otherwise. *)
Definition profile_after (p : Fetched (option Profile))
    (old : option Profile) : option Profile :=
  match p with
  | rejected => old
  | resolved res =>
      if ok res then
        match payload res with Some v => Some v | None => old end
      else old
  end.

Definition history_after (p : Fetched (option (list HistoryItem)))
    (old : list HistoryItem) : list HistoryItem :=
  match p with
  | rejected => old
  | resolved res =>
      if ok res then
        match payload res with Some v => v | None => old end
      else old
  end.

(** The calls of a log, without the states they were made from. *)
Definition calls (l : list Entry) : list Event := map snd l.

(** A code unit that [trim] removes. *)
Definition white (c : N) : Prop := is_white_space c = true.

(** ** The schema: policies, the second trigger, cascades *)

Module Policies.
Import Schema.

(** [auth.uid()]: the identifier of the caller, NULL for a caller that is
    not signed in.  A comparison with NULL is not true. *)
Definition auth_uid := option uuid.

(** ["Users can view own profile"] and ["Users can update own profile"]:
    [using (auth.uid() = id)]. *)
Definition own_profile (uid : auth_uid) (r : profiles_row) : bool :=
  bool_decide (uid = Some (id r)).

(** ["Users can view own generations"], [using (auth.uid() = user_id)],
    and ["Users can insert own generations"], [with check] of the same
    expression. *)
Definition own_generation (uid : auth_uid) (g : quote_generations_row)
    : bool :=
  bool_decide (uid = Some (qg_user_id g)).

(** [select * from public.profiles] by a caller under row-level
    security. *)
Definition select_profiles (uid : auth_uid) (db : Database)
    : gmap uuid profiles_row :=
  filter (fun kr => own_profile uid kr.2 = true) (profiles db).

(** [select * from public.quote_generations] under row-level security. *)
Definition select_quote_generations (uid : auth_uid) (db : Database)
    : gmap uuid quote_generations_row :=
  filter (fun kg => own_generation uid kg.2 = true) (quote_generations db).

(** The [check] constraint on [input_type]. *)
Definition input_type_of_text (t : text) : option input_type_value :=
  if decide (t = "book_title"%string) then Some book_title_value
  else if decide (t = "text_snippet"%string) then Some text_snippet_value
  else None.

(** A column with a default in the column list of an insert: left out,
    so that it takes the default, or given a value, which may be NULL. *)
Inductive given (A : Type) :=
| by_default
| value (v : option A).
Arguments by_default {A}.
Arguments value {A} _.

Definition column_value {A} (d : A) (g : given A) : option A :=
  match g with
  | by_default => Some d
  | value v => v
  end.

(** The values a caller gives when it inserts a generation.  A column
    without a default that is left out is NULL. *)
Record generation_values := {
  gv_id : given uuid;
  gv_user_id : option uuid;
  gv_input_type : option text;
  gv_book_title : option text;
  gv_author : option text;
  gv_input_text : option text;
  gv_quotes_data : option text;
  gv_created_at : given timestamptz
}.

(** [insert into public.quote_generations (...) values (...)] by a caller
    under row-level security; [fresh] is the value that
    [gen_random_uuid()] draws for the default of [id], [now] the value
    of [now()] for the default of [created_at].  The statement raises an
    error ([None]) when a [not null] column is NULL or when the [check]
    constraint, the policy's [with check], the foreign key to [profiles]
    or the primary key is violated. *)
Definition insert_quote_generations
    (uid : auth_uid) (fresh : uuid) (v : generation_values)
    (now : timestamptz) (db : Database) : option Database :=
  i ← column_value fresh (gv_id v);
  u ← gv_user_id v;
  t ← gv_input_type v;
  it ← input_type_of_text t;
  c ← column_value now (gv_created_at v);
  let row := {| qg_id := i; qg_user_id := u;
                qg_input_type := it;
                qg_book_title := gv_book_title v;
                qg_author := gv_author v;
                qg_input_text := gv_input_text v;
                qg_quotes_data := gv_quotes_data v;
                qg_created_at := c |} in
  if own_generation uid row then
    match profiles db !! u, quote_generations db !! i with
    | Some _, None =>
        Some {| auth_users := auth_users db;
                profiles := profiles db;
                quote_generations := <[i := row]> (quote_generations db) |}
    | _, _ => None
    end
  else None.

(** The trigger function [public.update_updated_at()]. *)
Definition update_updated_at (new : profiles_row) (now : timestamptz)
    : profiles_row :=
  {| id := id new; email := email new;
     usage_count := usage_count new; is_subscribed := is_subscribed new;
     stripe_customer_id := stripe_customer_id new;
     stripe_subscription_id := stripe_subscription_id new;
     created_at := created_at new;
     updated_at := now |}.

(** The [set] list of an update of [profiles] that leaves the key alone:
    for each other column, the new value when the column is assigned. *)
Record profiles_set := {
  set_email : option text;
  set_usage_count : option Z;
  set_is_subscribed : option bool;
  set_stripe_customer_id : option (option text);
  set_stripe_subscription_id : option (option text);
  set_created_at : option timestamptz;
  set_updated_at : option timestamptz
}.

(** The row after the assignments of the set list. *)
Definition assign (a : profiles_set) (r : profiles_row) : profiles_row :=
  {| id := id r;
     email := default (email r) (set_email a);
     usage_count := default (usage_count r) (set_usage_count a);
     is_subscribed := default (is_subscribed r) (set_is_subscribed a);
     stripe_customer_id :=
       default (stripe_customer_id r) (set_stripe_customer_id a);
     stripe_subscription_id :=
       default (stripe_subscription_id r) (set_stripe_subscription_id a);
     created_at := default (created_at r) (set_created_at a);
     updated_at := default (updated_at r) (set_updated_at a) |}.

(** The set list [set usage_count = n, is_subscribed = b]. *)
Definition entitlement_set (n : Z) (b : bool) : profiles_set :=
  {| set_email := None; set_usage_count := Some n;
     set_is_subscribed := Some b; set_stripe_customer_id := None;
     set_stripe_subscription_id := None; set_created_at := None;
     set_updated_at := None |}.

(** The range of the SQL type [integer]. *)
Definition is_integer (n : Z) : bool :=
  (-2147483648 <=? n) && (n <=? 2147483647).

(** [unique] on [stripe_customer_id]: no other row holds the same value;
    NULLs never conflict. *)
Definition stripe_customer_free (i : uuid) (c : option text)
    (db : Database) : bool :=
  match c with
  | None => true
  | Some _ =>
      bool_decide
        (map_Forall (fun k r => k = i \/ stripe_customer_id r <> c)
           (profiles db))
  end.

(** [update public.profiles set ... where id = i] by a caller under
    row-level security.  The policy hides every row but the caller's, so
    the statement updates no row unless [i] is the caller and has a row;
    on that row the trigger [update_profiles_updated_at] runs
    [update_updated_at] before the row is written.  The statement raises
    an error ([None]) when the new [usage_count] is out of range or the
    new [stripe_customer_id] is taken. *)
Definition update_profiles
    (uid : auth_uid) (i : uuid) (a : profiles_set)
    (now : timestamptz) (db : Database) : option Database :=
  match select_profiles uid db !! i with
  | None => Some db
  | Some old =>
      let new := update_updated_at (assign a old) now in
      if is_integer (usage_count new)
         && stripe_customer_free i (stripe_customer_id new) db
      then Some {| auth_users := auth_users db;
                   profiles := <[i := new]> (profiles db);
                   quote_generations := quote_generations db |}
      else None
  end.

(** [delete from auth.users where id = i], run by the authentication
    service: [on delete cascade] removes the profile of [i], and with it
    the generations of [i]. *)
Definition delete_auth_users (i : uuid) (db : Database) : Database :=
  {| auth_users := delete i (auth_users db);
     profiles := delete i (profiles db);
     quote_generations :=
       filter (fun kg => qg_user_id kg.2 <> i) (quote_generations db) |}.

(** Every row is stored under its primary key. *)
Definition keyed (db : Database) : Prop :=
  map_Forall (fun k r => au_id r = k) (auth_users db) /\
  map_Forall (fun k r => id r = k) (profiles db) /\
  map_Forall (fun k g => qg_id g = k) (quote_generations db).

(** The foreign keys: each profile belongs to an identity and each
    generation to a profile. *)
Definition references_hold (db : Database) : Prop :=
  map_Forall (fun k _ => is_Some (auth_users db !! k)) (profiles db) /\
  map_Forall (fun _ g => is_Some (profiles db !! qg_user_id g))
    (quote_generations db).

(** Each identity has its profile. *)
Definition every_identity_has_profile (db : Database) : Prop :=
  map_Forall (fun k _ => is_Some (profiles db !! k)) (auth_users db).

End Policies.

Module Statements.
Import Schema Policies.

(** [unique] on [stripe_customer_id], as a property of the table. *)
Definition unique_customers (db : Database) : Prop :=
  forall k1 k2 r1 r2,
    profiles db !! k1 = Some r1 -> profiles db !! k2 = Some r2 ->
    is_Some (stripe_customer_id r1) ->
    stripe_customer_id r1 = stripe_customer_id r2 -> k1 = k2.

(** What the constraints of the schema and the trigger
    [on_auth_user_created] maintain. *)
Record sound (db : Database) : Prop := {
  sound_keyed : keyed db;
  sound_references : references_hold db;
  sound_profiles : every_identity_has_profile db;
  sound_customers : unique_customers db
}.

(** The statements that reach the tables: registration and removal of an
    identity by the authentication service, and the statements the
    policies leave to a signed-in caller. *)
Inductive statement :=
| register (new : auth_users_row)
| unregister (i : uuid)
| add_generation (uid : auth_uid) (fresh : uuid) (v : generation_values)
| change_profile (uid : auth_uid) (i : uuid) (a : profiles_set).

Definition execute (s : statement) (now : timestamptz) (db : Database)
    : option Database :=
  match s with
  | register new => insert_auth_users new now db
  | unregister i => Some (delete_auth_users i db)
  | add_generation uid fresh v => insert_quote_generations uid fresh v now db
  | change_profile uid i a => update_profiles uid i a now db
  end.

(** A sequence of statements, each with its time; a statement that raises
    an error leaves the tables as they were. *)
Fixpoint execute_all (l : list (statement * timestamptz)) (db : Database)
    : Database :=
  match l with
  | [] => db
  | (s, now) :: l' => execute_all l' (default db (execute s now db))
  end.

Definition empty : Database :=
  {| auth_users := ∅; profiles := ∅; quote_generations := ∅ |}.

End Statements.

(** ** The backend of the generation endpoint *)

(** The page sends [POST /generate-quotes] to a backend that is part of
    the product but whose code is not among the sources: they hold the
    page that calls it and the schema of the tables it writes. *)
Module Backend.
Import Schema Policies.

(** Modelled from the spec: the gate that the backend of
    [POST /generate-quotes] applies; the backend's code is missing (the
    sources hold its caller, [handleGenerate], and the tables).
    [canGenerate(usage_count, is_subscribed)] "returns true if
    is_subscribed is true, OR usage_count < 1". *)
Definition canGenerate (usage_count : Z) (is_subscribed : bool) : bool :=
  is_subscribed || (usage_count <? 1).

(** Modelled from the spec: the outcome of the external generation call
    that the missing backend makes, "a single opaque external call with a
    single success/failure outcome".  A success comes with the PDF and
    the record of the generation, a failure with the [detail] of the
    error. *)
Inductive Generation :=
| generated (pdf : Blob) (record : quote_generations_row)
| failed (detail : JsString).

(** Modelled from the spec: [recordGeneration(user)], missing with the
    backend.  It "increments usage_count by 1 and appends a
    GenerationRecord", here in one transaction on the tables of the
    schema: the update of the profile runs the trigger
    [update_profiles_updated_at], the record must be the user's, under a
    key that is not taken, and the count must stay an [integer];
    otherwise nothing is written ([None]). *)
Definition recordGeneration
    (user : uuid) (record : quote_generations_row)
    (now : timestamptz) (db : Database) : option Database :=
  row ← profiles db !! user;
  match quote_generations db !! qg_id record with
  | Some _ => None
  | None =>
      let counted :=
        {| id := id row; email := email row;
           usage_count := usage_count row + 1;
           is_subscribed := is_subscribed row;
           stripe_customer_id := stripe_customer_id row;
           stripe_subscription_id := stripe_subscription_id row;
           created_at := created_at row;
           updated_at := updated_at row |} in
      if bool_decide (qg_user_id record = user)
         && is_integer (usage_count counted)
      then Some {| auth_users := auth_users db;
                   profiles :=
                     <[user := update_updated_at counted now]> (profiles db);
                   quote_generations :=
                     <[qg_id record := record]> (quote_generations db) |}
      else None
  end.

(** Modelled from the spec: what [POST /generate-quotes] answers, "on
    success, a binary PDF payload; on entitlement failure, HTTP 402; on
    other failure, structured { detail } error". *)
Inductive Answer :=
| pdf_payload (pdf : Blob)
| quota_exceeded
| error_detail (detail : JsString).

(** Modelled from the spec: the missing handler of
    [POST /generate-quotes] for the caller [user].  The gate is decided
    on the caller's row; "if the gate predicate is false and a
    generation is attempted anyway, the request must be rejected with a
    distinguishable quota exceeded signal", and the external call is not
    made.  Otherwise [outcome] is what the external call gives: "if the
    external generation call fails, no increment and no record is
    written", and on success [recordGeneration] runs.  [None]: the
    caller has no account, or the record cannot be written after a
    success ("partial failure is not modeled"). *)
Definition generate_quotes
    (user : uuid) (outcome : Generation)
    (now : timestamptz) (db : Database) : option (Database * Answer) :=
  row ← profiles db !! user;
  if canGenerate (usage_count row) (is_subscribed row) then
    match outcome with
    | generated pdf record =>
        db' ← recordGeneration user record now db;
        Some (db', pdf_payload pdf)
    | failed d => Some (db, error_detail d)
    end
  else Some (db, quota_exceeded).

(** Modelled from the spec: how an answer of the missing backend reaches
    the page as the response to its request.  The PDF comes with an ok
    status, the quota signal is the status 402, and another failure is an
    error status other than 402 whose JSON body holds the [detail]. *)
Definition encodes (a : Answer) (p : Fetched GenerateReply) : Prop :=
  match p with
  | rejected => False
  | resolved res =>
      match a with
      | pdf_payload pdf =>
          ok res = true /\ reply_blob (payload res) = Some pdf
      | quota_exceeded => (status res =? 402)%N = true
      | error_detail d =>
          ok res = false /\ (status res =? 402)%N = false /\
          reply_json (payload res) = json_value {| detail := Some d |}
      end
  end.

End Backend.

(** ** The landing page and the sign-in page *)

(** The handlers of these two pages await the authentication client only,
    whose calls answer with a value: they run in a monad that threads the
    cells of the page and the clock, and logs each call with the cells at
    the moment of the call. *)
Module Page.

Record Out (St Ev A : Type) := {
  value : A;
  cells : St;
  instant : nat;
  logged : list (St * Ev)
}.
Arguments value {St Ev A} _.
Arguments cells {St Ev A} _.
Arguments instant {St Ev A} _.
Arguments logged {St Ev A} _.

Definition Eff (St Ev A : Type) : Type := St -> nat -> Out St Ev A.

#[export] Instance Eff_ret {St Ev} : MRet (Eff St Ev) := fun A a s t =>
  {| value := a; cells := s; instant := t; logged := [] |}.

#[export] Instance Eff_bind {St Ev} : MBind (Eff St Ev) := fun A B f m s t =>
  match m s t with
  | {| value := a; cells := s1; instant := t1; logged := l1 |} =>
      match f a s1 t1 with
      | {| value := b; cells := s2; instant := t2; logged := l2 |} =>
          {| value := b; cells := s2; instant := t2; logged := l1 ++ l2 |}
      end
  end.

Definition get {St Ev} : Eff St Ev St := fun s t =>
  {| value := s; cells := s; instant := t; logged := [] |}.

Definition now {St Ev} : Eff St Ev nat := fun s t =>
  {| value := t; cells := s; instant := t; logged := [] |}.

Definition modify {St Ev} (f : St -> St) : Eff St Ev unit := fun s t =>
  {| value := tt; cells := f s; instant := t; logged := [] |}.

Definition emit {St Ev} (e : Ev) : Eff St Ev unit := fun s t =>
  {| value := tt; cells := s; instant := S t; logged := [(s, e)] |}.

End Page.

(** [LandingPage] (the second component of [page.tsx]). *)
Module LandingPage.
Import Page.

(** The one cell, [user]. *)
Definition State := option Dashboard.User.

Definition initial_state : State := None.

Inductive Event :=
| getUser (answer : Dashboard.GetUserResult).

Definition Env := nat -> Dashboard.GetUserResult.

(** The effect: [const { data: { user } } = await
    supabase.auth.getUser(); setUser(user)]. *)
Definition getUser_effect (env : Env) : Eff State Event unit :=
  t ← now;
  emit (getUser (env t));;
  modify (fun _ => Dashboard.data_user (env t)).

(** The button the page shows, with the target of its link. *)
Inductive View :=
| ResumeToDashboard (href : JsString)
| LoginSignUp (href : JsString).

Definition render (s : State) : View :=
  match s with
  | Some _ => ResumeToDashboard (js "/dashboard")
  | None => LoginSignUp (js "/login")
  end.

End LandingPage.

(** [AuthPage] (the sign-in page). *)
Module AuthPage.
Import Page.

Record State := {
  isSignUp : bool;
  email : JsString;
  password : JsString;
  user : option Dashboard.User;
  loading : bool
}.

Definition initial_state : State :=
  {| isSignUp := false; email := []; password := []; user := None;
     loading := true |}.

Definition with_user (v : option Dashboard.User) (s : State) : State :=
  {| isSignUp := isSignUp s; email := email s; password := password s;
     user := v; loading := loading s |}.

Definition with_loading (v : bool) (s : State) : State :=
  {| isSignUp := isSignUp s; email := email s; password := password s;
     user := user s; loading := v |}.

(** The [error] of an answer of the authentication client. *)
Record AuthError := { message : JsString }.

Record Env := {
  supabase_auth_getUser : nat -> Dashboard.GetUserResult;
  supabase_auth_signUp : nat -> JsString -> JsString -> option AuthError;
  supabase_auth_signInWithPassword :
    nat -> JsString -> JsString -> option AuthError
}.

Inductive Event :=
| preventDefault
| getUser (answer : Dashboard.GetUserResult)
| signUp (email password : JsString) (error : option AuthError)
| signInWithPassword (email password : JsString) (error : option AuthError)
| signOut
| alert (msg : JsString)
| router_push (href : JsString)
| router_refresh.

(** [checkUser], the effect run when the page is mounted. *)
Definition checkUser (env : Env) : Eff State Event unit :=
  t ← now;
  emit (getUser (supabase_auth_getUser env t));;
  modify (with_user (Dashboard.data_user (supabase_auth_getUser env t)));;
  modify (with_loading false).

Definition msg_check_email : JsString :=
  js "Success! Check your email for a confirmation link.".

(** [handleSubmit]; the form values are those of the state the handler
    closed over. *)
Definition handleSubmit (env : Env) : Eff State Event unit :=
  s ← get;
  emit preventDefault;;
  modify (with_loading true);;
  (if isSignUp s then
     t ← now;
     let error := supabase_auth_signUp env t (email s) (password s) in
     emit (signUp (email s) (password s) error);;
     match error with
     | Some e => emit (alert (message e))
     | None => emit (alert msg_check_email)
     end
   else
     t ← now;
     let error :=
       supabase_auth_signInWithPassword env t (email s) (password s) in
     emit (signInWithPassword (email s) (password s) error);;
     match error with
     | Some e => emit (alert (message e))
     | None => emit (router_push (js "/dashboard"))
     end);;
  modify (with_loading false).

Definition handleLogout : Eff State Event unit :=
  emit signOut;;
  modify (with_user None);;
  emit router_refresh.

Inductive View :=
| Loading
| WelcomeBack (email : option JsString)
| AuthForm (signUpMode : bool) (email password : JsString).

Definition render (s : State) : View :=
  if loading s then Loading
  else
    match user s with
    | Some u => WelcomeBack (Dashboard.user_email u)
    | None => AuthForm (isSignUp s) (email s) (password s)
    end.

(** The calls of a log. *)
Definition calls (l : list (State * Event)) : list Event := map snd l.

End AuthPage.

(** ** Further sample inputs *)

Module MoreSamples.
Import Dashboard.

(** The dashboard address without a query. *)
Definition plain_dashboard : Location :=
  {| pathname := js "/dashboard"; search := [] |}.

(** A backend that never answers a generation request. *)
Definition unreachable_generate : Env :=
  Samples.steady_env Samples.signed_in (Some Samples.reader_session)
    (Samples.respond 200 (Some (Samples.free_profile 0))) rejected.

(** A backend whose [/profile] is never answered. *)
Definition unreachable_profile : Env :=
  Samples.steady_env Samples.signed_in (Some Samples.reader_session)
    rejected (Samples.respond 200 Samples.pdf).

(** A working backend for a reader who has used the free generation. *)
Definition working (n : Z) : Env :=
  Samples.steady_env Samples.signed_in (Some Samples.reader_session)
    (Samples.respond 200 (Some (Samples.free_profile n)))
    (Samples.respond 200 Samples.pdf).

(** A backend that answers a generation request with a server error
    whose body is the JSON [null]. *)
Definition null_error : Env :=
  Samples.steady_env Samples.signed_in (Some Samples.reader_session)
    (Samples.respond 200 (Some (Samples.free_profile 0)))
    (Samples.respond 500 {| reply_json := json_null; reply_blob := Some [] |}).

(** The database after the first registration, as a run of statements. *)
Definition one_reader : Schema.Database :=
  Statements.execute_all
    [(Statements.register Samples.first_identity, 1000)] Statements.empty.

(** The profile the trigger made for the first reader. *)
Definition first_profile : Schema.profiles_row :=
  {| Schema.id := 7%N; Schema.email := "reader@example.org"%string;
     Schema.usage_count := 0; Schema.is_subscribed := false;
     Schema.stripe_customer_id := None;
     Schema.stripe_subscription_id := None;
     Schema.created_at := 1000; Schema.updated_at := 1000 |}.

(** A set list that tries to date the row back. *)
Definition backdated : Policies.profiles_set :=
  {| Policies.set_email := None; Policies.set_usage_count := None;
     Policies.set_is_subscribed := None;
     Policies.set_stripe_customer_id := None;
     Policies.set_stripe_subscription_id := None;
     Policies.set_created_at := None;
     Policies.set_updated_at := Some 0 |}.

(** The record of a generation of the first reader. *)
Definition first_record : Schema.quote_generations_row :=
  {| Schema.qg_id := 1%N; Schema.qg_user_id := 7%N;
     Schema.qg_input_type := Schema.book_title_value;
     Schema.qg_book_title := Some "Emma"%string;
     Schema.qg_author := None;
     Schema.qg_input_text := None;
     Schema.qg_quotes_data := None;
     Schema.qg_created_at := 2000 |}.

(** The database after the first reader has used the free generation. *)
Definition used_once : Schema.Database :=
  default one_reader
    (fst <$> Backend.generate_quotes 7%N
               (Backend.generated [37; 80; 68; 70]%N first_record)
               2000 one_reader).

(** A backend that rejects a generation request for want of quota. *)
Definition out_of_quota : Env :=
  Samples.steady_env Samples.signed_in (Some Samples.reader_session)
    (Samples.respond 200 (Some (Samples.free_profile 1)))
    (Samples.respond 402 (Samples.error_reply "limit")).


(** A generation the first reader records. *)
Definition first_generation : Policies.generation_values :=
  {| Policies.gv_id := Policies.by_default;
     Policies.gv_user_id := Some 7%N;
     Policies.gv_input_type := Some "book_title"%string;
     Policies.gv_book_title := Some "Emma"%string;
     Policies.gv_author := None;
     Policies.gv_input_text := None;
     Policies.gv_quotes_data := None;
     Policies.gv_created_at := Policies.by_default |}.

End MoreSamples.

(** ** Further tactics *)

(** Rewrites the hypotheses with the tests taken in the current branch. *)
Ltac use_tests :=
  repeat match goal with
    | E : ?x = _, H : context [?x] |- _ =>
        lazymatch x with
        | ok _ => rewrite E in H
        | payload _ => rewrite E in H
        end
    end.

(** Unfolds the handlers of the landing page and of the sign-in page. *)
Ltac run_page :=
  cbv [LandingPage.getUser_effect AuthPage.checkUser AuthPage.handleSubmit
       AuthPage.handleLogout AuthPage.calls
       mbind mret Page.Eff_bind Page.Eff_ret Page.get Page.now Page.modify
       Page.emit Page.value Page.cells Page.instant Page.logged app map snd].


(** * Properties *)

(** ** The monad and the log *)

Lemma Async_left_id {A B} (a : A) (f : A -> Async B) w :
  (mret a ≫= f) w = f a w.
Proof.
  unfold mbind, mret, Async_bind, Async_ret.
  destruct (f a w); reflexivity.
Qed.

Lemma Async_right_id {A} (m : Async A) w :
  (m ≫= mret) w = m w.
Proof.
  unfold mbind, mret, Async_bind, Async_ret.
  destruct (m w) as [[a|] w1 t1]; [|reflexivity].
  rewrite app_nil_r. reflexivity.
Qed.

Lemma Async_assoc {A B C} (m : Async A) (f : A -> Async B)
    (g : B -> Async C) w :
  ((m ≫= f) ≫= g) w = (m ≫= (fun a => f a ≫= g)) w.
Proof.
  unfold mbind, Async_bind.
  destruct (m w) as [[a|] w1 t1]; [|reflexivity].
  destruct (f a w1) as [[b|] w2 t2]; [|reflexivity].
  destruct (g b w2) as [c w3 t3].
  rewrite app_assoc. reflexivity.
Qed.

(** The clock counts the calls: a handler that logs [n] calls ends [n]
    instants later, so each of its calls is made at an instant of its
    own. *)
Lemma clock_counts_calls env w :
  clock (final (init env w)) = (clock w + length (trace (init env w)))%nat /\
  clock (final (handleGenerate env w))
  = (clock w + length (trace (handleGenerate env w)))%nat /\
  clock (final (handleUpgrade env w))
  = (clock w + length (trace (handleUpgrade env w)))%nat.
Proof.
  destruct w as [s l c]. repeat split.
  all: explore; simpl; lia.
Qed.

(** ** The dashboard *)

Lemma msg_upgrade_not_error e : msg_upgrade <> msg_error e.
Proof.
  intros H. apply (f_equal head) in H. vm_compute in H. discriminate.
Qed.

Lemma msg_upgrade_not_retry : msg_upgrade <> msg_went_wrong_retry.
Proof. intros H. vm_compute in H. discriminate. Qed.

Lemma ok_not_402 {A} (res : Response A) :
  ok res = true -> (status res =? 402)%N = false.
Proof.
  unfold ok. intros H. apply N.eqb_neq. intros E. rewrite E in H.
  discriminate H.
Qed.

(** *** The entitlement gate *)

(** C1: for every pair [(usage_count, is_subscribed)] held in the profile,
    [canGenerate] is true exactly when [is_subscribed] is true or
    [usage_count < 1].  It is a function of the profile alone: the other
    cells of the state ([s]) and the e-mail do not enter, and nothing is
    modified. *)
Theorem canGenerate_iff (s : State) (e : JsString) (n : Z) (sub : bool) :
  canGenerate
    (with_profile
       (Some {| email := e; usage_count := n; is_subscribed := sub |}) s)
  = true
  <-> sub = true \/ n < 1.
Proof.
  unfold canGenerate, usageCount.
  cbn [profile with_profile is_subscribed usage_count].
  rewrite orb_true_iff, Z.ltb_lt. reflexivity.
Qed.

(** *** Generation *)



(** [handleGenerate] on the status 402, and the upgrade prompt on every
    other answer. *)
Lemma status_402_shows_upgrade_prompt env w :
  missing_title (state w) = false ->
  missing_snippet (state w) = false ->
  let r := handleGenerate env w in
  let req := generate_request env
               (token_of (supabase_auth_getSession env (clock w))) (state w) in
  (payment_required (generation_outcome env w) = true ->
     requests (trace r) = [req] /\
     alerts (trace r) = [msg_upgrade] /\
     completion r = normal tt /\
     state (final r) = with_generating false (state w)) /\
  (payment_required (generation_outcome env w) = false ->
     msg_upgrade ∉ alerts (trace r)).
Proof.
  unfold generation_outcome. destruct w as [s l c].
  cbv [state clock]. intros Ht Hs. cbv zeta.
  split; intros H.
  - explore; try congruence.
    all: repeat match goal with
         | E : backend_generate _ _ _ = _ |- _ => rewrite E in H; clear E
         end; simpl in H; try congruence.
    destruct s; repeat split.
  - explore; try congruence.
    all: repeat match goal with
         | E : backend_generate _ _ _ = _ |- _ => rewrite E in H; clear E
         end; simpl in H; try congruence.
    all: intros Hin;
      repeat (apply elem_of_cons in Hin as [Hin|Hin]);
      try (apply elem_of_nil in Hin; contradiction).
    all: first [ exact (msg_upgrade_not_error _ Hin)
               | exact (msg_upgrade_not_retry Hin) ].
Qed.

(** The alert on an error status other than 402 whose JSON body holds a
    [detail]. *)
Lemma error_detail_alert env w res d :
  missing_title (state w) = false ->
  missing_snippet (state w) = false ->
  generation_outcome env w = resolved res ->
  ok res = false ->
  (status res =? 402)%N = false ->
  reply_json (payload res) = json_value {| detail := Some d |} ->
  alerts (trace (handleGenerate env w)) = [js "Error: " ++ d].
Proof.
  unfold generation_outcome. destruct w as [s l c].
  cbv [state clock]. intros Ht Hs Hg Hok H402 Hj.
  explore; try congruence.
  all: try (rewrite Hg in *; simplify_eq).
  all: try (rewrite Hok in *; discriminate).
  all: rewrite Hj in *; simplify_eq.
  reflexivity.
Qed.

(** The gate of the backend is the gate of the page, [canGenerate],
    taken on the same pair. *)
Lemma backend_gate_is_page_gate (s : State) (p : Profile) :
  Backend.canGenerate (usage_count p) (is_subscribed p)
  = canGenerate (with_profile (Some p) s).
Proof. reflexivity. Qed.

(** What a run of the backend's handler leaves, by the answer it
    gives. *)
Lemma generate_quotes_Some user outcome now db db' answer :
  Backend.generate_quotes user outcome now db = Some (db', answer) ->
  exists row,
    Schema.profiles db !! user = Some row /\
    let open := Backend.canGenerate (Schema.usage_count row)
                  (Schema.is_subscribed row) in
    match answer with
    | Backend.quota_exceeded => open = false /\ db' = db
    | Backend.error_detail d =>
        open = true /\ outcome = Backend.failed d /\ db' = db
    | Backend.pdf_payload pdf =>
        open = true /\
        exists record,
          outcome = Backend.generated pdf record /\
          Backend.recordGeneration user record now db = Some db'
    end.
Proof.
  unfold Backend.generate_quotes.
  destruct (Schema.profiles db !! user) as [row|] eqn:Hrow; [|discriminate].
  simpl. intros H. exists row. split; [reflexivity|]. cbv zeta.
  destruct (Backend.canGenerate _ _).
  - destruct outcome as [pdf record|d].
    + destruct (Backend.recordGeneration user record now db) as [db1|] eqn:Hr;
        [|discriminate].
      simpl in H. injection H as <- <-. split; [reflexivity|]. eauto.
    + injection H as <- <-. auto.
  - injection H as <- <-. auto.
Qed.




(** C3: a generation attempted with the gate closed, end to end.  The
    backend decides on the caller's row.  When the gate predicate is
    false there, whatever the external call would give, the request is
    rejected with the quota signal and nothing is written; the page,
    which receives it as the status 402, shows the upgrade prompt and
    nothing else, has sent the request once and sends nothing after it
    (no retry), and ends normally with only [generating] touched.  When
    the gate is open the answer is never the quota signal and the
    upgrade prompt is not shown: a failure of the external call gives
    the message built from its [detail], the generic error path. *)
Theorem closed_gate_is_upgrade_prompt
    env w user outcome now db db' answer :
  missing_title (state w) = false ->
  missing_snippet (state w) = false ->
  Backend.generate_quotes user outcome now db = Some (db', answer) ->
  Backend.encodes answer (generation_outcome env w) ->
  let r := handleGenerate env w in
  let req := generate_request env
               (token_of (supabase_auth_getSession env (clock w))) (state w) in
  let prompt := js "Free tier limit reached. Click " ++ [34%N]
                ++ js "Upgrade to Pro" ++ [34%N] ++ js " to continue." in
  exists row,
    Schema.profiles db !! user = Some row /\
    if Backend.canGenerate (Schema.usage_count row) (Schema.is_subscribed row)
    then answer <> Backend.quota_exceeded /\
         (prompt ∉ alerts (trace r)) /\
         (forall d, answer = Backend.error_detail d ->
            alerts (trace r) = [js "Error: " ++ d])
    else answer = Backend.quota_exceeded /\
         db' = db /\
         requests (trace r) = [req] /\
         alerts (trace r) = [prompt] /\
         completion r = normal tt /\
         state (final r) = with_generating false (state w).
Proof.
  intros Ht Hs Hb He. cbv zeta.
  apply generate_quotes_Some in Hb as (row & Hrow & Hb). cbv zeta in Hb.
  exists row. split; [exact Hrow|].
  unfold Backend.encodes in He.
  destruct (generation_outcome env w) as [|res] eqn:Hg; [contradiction|].
  destruct (status_402_shows_upgrade_prompt env w Ht Hs) as (Hyes & Hno).
  cbv zeta in Hyes, Hno. rewrite Hg in Hyes, Hno. simpl in Hyes, Hno.
  destruct answer as [pdf| |d].
  - destruct Hb as (-> & _). destruct He as (Hok & _).
    split; [discriminate|]. split; [|discriminate].
    exact (Hno (ok_not_402 _ Hok)).
  - destruct Hb as (-> & ->).
    destruct (Hyes He) as (Hr & Ha & Hc & Hst). auto.
  - destruct Hb as (-> & _). destruct He as (Hok & H402 & Hj).
    split; [discriminate|]. split; [exact (Hno H402)|].
    intros d' [= <-].
    exact (error_detail_alert env w res d Ht Hs Hg Hok H402 Hj).
Qed.

Lemma closed_gate_is_upgrade_prompt_witness :
  let w := Samples.ready (Some (Samples.free_profile 1)) in
  let r := handleGenerate MoreSamples.out_of_quota w in
  Backend.generate_quotes 7%N
    (Backend.generated [37; 80; 68; 70]%N MoreSamples.first_record) 3000
    MoreSamples.used_once
  = Some (MoreSamples.used_once, Backend.quota_exceeded) /\
  (exists row, Schema.profiles MoreSamples.used_once !! 7%N = Some row /\
               Schema.usage_count row = 1 /\
               Schema.is_subscribed row = false) /\
  alerts (trace r)
  = [js "Free tier limit reached. Click " ++ [34%N]
     ++ js "Upgrade to Pro" ++ [34%N] ++ js " to continue."] /\
  length (requests (trace r)) = 1%nat.
Proof.
  cbv zeta. split; [reflexivity|].
  destruct (closed_gate_is_upgrade_prompt
              MoreSamples.out_of_quota
              (Samples.ready (Some (Samples.free_profile 1)))
              7%N
              (Backend.generated [37; 80; 68; 70]%N MoreSamples.first_record)
              3000 MoreSamples.used_once MoreSamples.used_once
              Backend.quota_exceeded
              eq_refl eq_refl eq_refl eq_refl)
    as (row & Hrow & H).
  assert (Hval : Schema.profiles MoreSamples.used_once !! 7%N
                 = Some (Policies.update_updated_at
                           {| Schema.id := 7%N;
                              Schema.email := "reader@example.org"%string;
                              Schema.usage_count := 1;
                              Schema.is_subscribed := false;
                              Schema.stripe_customer_id := None;
                              Schema.stripe_subscription_id := None;
                              Schema.created_at := 1000;
                              Schema.updated_at := 1000 |} 2000))
    by reflexivity.
  pose proof (eq_trans (eq_sym Hval) Hrow) as E. injection E as <-.
  simpl in H.
  destruct H as (_ & _ & Hr & Ha & _).
  split; [eexists; split; [exact Hval|split; reflexivity]|].
  split; [exact Ha|]. exact (f_equal length Hr).
Defined.

(** C4: when the required input is missing (the title for [book_title],
    the snippet for [text_snippet], empty or blank), [handleGenerate]
    shows the matching message at once and returns: the alert is the only
    entry of its log, so no request is sent and the session is not even
    read, and the state is untouched. *)
Theorem missing_input_stops_before_network env w :
  (inputType (state w) = book_title /\ trim (bookTitle (state w)) = []) \/
  (inputType (state w) = text_snippet /\ trim (snippet (state w)) = []) ->
  let r := handleGenerate env w in
  trace r = [(state w,
              alert match inputType (state w) with
                    | book_title => msg_enter_title
                    | text_snippet => msg_paste_snippet
                    end)] /\
  requests (trace r) = [] /\
  state (final r) = state w /\
  completion r = normal tt.
Proof.
  destruct w as [s l c]. cbv [state]. intros H. cbv zeta.
  assert (Hm : missing_title s = true /\ inputType s = book_title \/
               missing_title s = false /\ missing_snippet s = true /\
               inputType s = text_snippet).
  { unfold missing_title, missing_snippet.
    destruct H as [[Hi Ht]|[Hi Ht]]; rewrite Hi, Ht; auto. }
  run.
  destruct Hm as [[Hm Hi]|(Hm & Hn & Hi)]; rewrite Hm; [|rewrite Hn];
    rewrite Hi; run; repeat split.
Qed.

Lemma missing_input_stops_before_network_witness :
  let env := Samples.steady_env Samples.signed_in (Some Samples.reader_session)
               (Samples.respond 200 (Some (Samples.free_profile 0)))
               (Samples.respond 200 Samples.pdf) in
  let w := {| state := initial_state;
              location := Samples.checkout_return; clock := 0 |} in
  bookTitle (state w) = [] /\
  trace (handleGenerate env w) = [(initial_state, alert msg_enter_title)] /\
  requests (trace (handleGenerate env w)) = [].
Proof.
  cbv zeta. split; [reflexivity|].
  destruct (missing_input_stops_before_network
              (Samples.steady_env Samples.signed_in
                 (Some Samples.reader_session)
                 (Samples.respond 200 (Some (Samples.free_profile 0)))
                 (Samples.respond 200 Samples.pdf))
              {| state := initial_state;
                 location := Samples.checkout_return; clock := 0 |}
              (or_introl (conj eq_refl eq_refl))) as (Ht & Hr & _).
  split; [exact Ht | exact Hr].
Defined.

(** *** The session *)

Lemma profile_request_bearer env token :
  carries_bearer token (profile_request env token) = true.
Proof. apply bool_decide_eq_true_2. simpl. apply list_elem_of_here. Qed.

Lemma history_request_bearer env token :
  carries_bearer token (history_request env token) = true.
Proof. apply bool_decide_eq_true_2. simpl. apply list_elem_of_here. Qed.

Lemma checkout_request_bearer env token :
  carries_bearer token (checkout_request env token) = true.
Proof. apply bool_decide_eq_true_2. simpl. apply list_elem_of_here. Qed.

Lemma generate_request_bearer env token s :
  carries_bearer token (generate_request env token s) = true.
Proof.
  apply bool_decide_eq_true_2. simpl.
  apply list_elem_of_further, list_elem_of_here.
Qed.

Create Rewrite HintDb bearer.

#[local] Hint Rewrite profile_request_bearer history_request_bearer
  checkout_request_bearer generate_request_bearer : bearer.

(** C5: the effect that runs when the page is mounted starts with the
    session check, made in the initial state, and that state renders the
    loading view.  Until the provider has answered nothing else happens:
    every backend request of the run is sent from a state that already
    holds the user, and when the check fails or finds no user the page
    only redirects to ["/"] and sends no request.  Throughout the run, a
    state without a user renders the loading view (there is no other view
    for it: neither the dashboard nor a sign-in prompt). *)
Theorem unknown_session_shows_loading env l c :
  let r := init env (mount l c) in
  render (state (mount l c)) = LoadingView /\
  head (trace r) = Some (initial_state, getUser (supabase_auth_getUser env c)) /\
  requests_have_user (trace r) = true /\
  Forall (fun e : Entry => user e.1 = None -> render e.1 = LoadingView)
    (trace r) /\
  (authenticated (supabase_auth_getUser env c) = false ->
   trace r = [(initial_state, getUser (supabase_auth_getUser env c));
              (initial_state, router_push (js "/"))]).
Proof.
  cbv zeta. split; [reflexivity|].
  run. destruct (supabase_auth_getUser env c) as [[u|] [e|]].
  all: cbv [authenticated error data_user]; explore_cells.
  all: split; [reflexivity|split; [reflexivity|split]].
  all: try (intros; discriminate).
  all: try (intros _; reflexivity).
  all: repeat (apply Forall_cons; split;
               [simpl; first [discriminate|reflexivity]|]).
  all: apply Forall_nil_2.
Qed.

(** The claim of C6 fails as it is stated: with no session at all
    ([getSession] always answers [null]) [handleGenerate] still sends the
    generation request, with the bearer made from the empty token. *)
Lemma absent_session_still_calls_backend :
  let env := Samples.steady_env Samples.signed_in None
               (Samples.respond 401 None)
               (Samples.respond 401 (Samples.error_reply "Not authenticated")) in
  let w := Samples.ready (Some (Samples.free_profile 0)) in
  (forall t, supabase_auth_getSession env t = None) /\
  requests (trace (handleGenerate env w))
  = [generate_request env [] (state w)] /\
  (js "Authorization", js "Bearer ") ∈ headers (generate_request env [] (state w)).
Proof.
  cbv zeta. split; [reflexivity|split; [reflexivity|]].
  apply list_elem_of_further, list_elem_of_here.
Qed.

(** C6, amended: in each handler that calls the backend (the mount effect,
    [handleGenerate], [handleUpgrade]) every request carries
    [Authorization: Bearer <token>], where the token is the access token of
    the session read by the latest [getSession] of that handler, or the
    empty string when the provider answered that there is no session; and
    the mount effect sends no request when the user check fails or finds no
    user. *)
Theorem requests_carry_session_bearer env w :
  bearer_follows_session None (trace (init env w)) = true /\
  bearer_follows_session None (trace (handleGenerate env w)) = true /\
  bearer_follows_session None (trace (handleUpgrade env w)) = true /\
  (authenticated (supabase_auth_getUser env (clock w)) = false ->
   requests (trace (init env w)) = []).
Proof.
  destruct w as [s l c]. repeat split.
  - run. destruct (supabase_auth_getUser env c) as [[u|] [e|]].
    all: cbv [error data_user]; explore; autorewrite with bearer; reflexivity.
  - explore; autorewrite with bearer; reflexivity.
  - explore; autorewrite with bearer; reflexivity.
  - run. destruct (supabase_auth_getUser env c) as [[u|] [e|]].
    all: cbv [authenticated error data_user]; intros H; try discriminate H.
    all: reflexivity.
Qed.

(** *** Return from the checkout *)

(** The claim of C7 fails as it is stated: on return from the checkout
    the request that reads the profile again leaves from a state that
    already renders the success banner, although the profile held then
    (and the one that comes back) is not subscribed. *)
Lemma banner_shown_before_refetch_resolves :
  let env := Samples.steady_env Samples.signed_in (Some Samples.reader_session)
               (Samples.respond 200 (Some (Samples.free_profile 1)))
               (Samples.respond 200 Samples.pdf) in
  let r := init env (mount Samples.checkout_return 0) in
  exists s v,
    trace r !! 4%nat = Some (s, fetch (profile_request env (js "tok-1"))) /\
    render s = Loaded v /\
    success_banner v = true /\
    pro_badge v = false /\
    subscribed (state (final r)) = false.
Proof.
  cbv zeta. eexists. eexists.
  split; [reflexivity|]. split; [reflexivity|]. repeat split.
Qed.

(** C7, amended: on return from the checkout with [success=true] the
    page first reads the profile and the history, and shows the loading
    view until both readings have come to their end.  It then sets the
    success flag from the query parameter alone and reads the profile
    again: that request (the fifth call of the run) leaves from a state
    that renders the dashboard with the success banner, so the
    confirmation is on screen while the answer is pending, and the flag is
    still set when the run ends, whatever the profile says. *)
Theorem checkout_return_banner_then_refetch env l c u :
  supabase_auth_getUser env c = {| data_user := Some u; error := None |} ->
  let token := token_of (supabase_auth_getSession env (S c)) in
  settles (backend_profile env (S (S c)) (profile_request env token)) = true ->
  settles (backend_history env (S (S (S c))) (history_request env token))
  = true ->
  success_param l = true ->
  let r := init env (mount l c) in
  (forall i e, (i < 4)%nat -> trace r !! i = Some e ->
               render e.1 = LoadingView) /\
  exists s v,
    trace r !! 4%nat = Some (s, fetch (profile_request env token)) /\
    render s = Loaded v /\
    success_banner v = true /\
    showSuccess (state (final r)) = true.
Proof.
  cbv zeta. intros Hu Hp Hh Hs.
  run. rewrite Hu. cbv [error data_user].
  explore; try congruence.
  all: use_answers; simpl in Hp, Hh;
    repeat match goal with
      | E : ok ?res = _, H : context [ok ?res] |- _ => rewrite E in H
      | E : payload ?res = _, H : context [payload ?res] |- _ => rewrite E in H
      end;
    try discriminate.
  all: split;
    [ intros i e Hi He;
      do 4 (destruct i as [|i]; [injection He as <-; reflexivity|]); lia
    | eexists; eexists; split; [reflexivity|]; repeat split ].
Qed.

Lemma checkout_return_banner_then_refetch_witness :
  let env := Samples.steady_env Samples.signed_in (Some Samples.reader_session)
               (Samples.respond 200 (Some (Samples.free_profile 1)))
               (Samples.respond 200 Samples.pdf) in
  let r := init env (mount Samples.checkout_return 0) in
  success_param Samples.checkout_return = true /\
  (forall i e, (i < 4)%nat -> trace r !! i = Some e ->
               render e.1 = LoadingView) /\
  exists s v,
    trace r !! 4%nat = Some (s, fetch (profile_request env (js "tok-1"))) /\
    render s = Loaded v /\
    success_banner v = true /\
    showSuccess (state (final r)) = true.
Proof.
  cbv zeta. split; [reflexivity|].
  exact (checkout_return_banner_then_refetch
           (Samples.steady_env Samples.signed_in (Some Samples.reader_session)
              (Samples.respond 200 (Some (Samples.free_profile 1)))
              (Samples.respond 200 Samples.pdf))
           Samples.checkout_return 0%nat Samples.reader
           eq_refl eq_refl eq_refl eq_refl).
Defined.

(** X8: when the second reading of the profile comes to its end, the mount
    effect strips the query: the location is ["/dashboard"] without
    parameters, and a reload no longer sees [success]. *)
Lemma success_param_stripped_after_refetch env w u :
  supabase_auth_getUser env (clock w) = {| data_user := Some u; error := None |} ->
  let token := token_of (supabase_auth_getSession env (S (clock w))) in
  settles (backend_profile env (S (S (clock w))) (profile_request env token))
  = true ->
  settles (backend_history env (S (S (S (clock w)))) (history_request env token))
  = true ->
  success_param (location w) = true ->
  settles (backend_profile env (4 + clock w) (profile_request env token))
  = true ->
  let r := init env w in
  location (final r) = {| pathname := js "/dashboard"; search := [] |} /\
  success_param (location (final r)) = false /\
  completion r = normal tt.
Proof.
  destruct w as [s0 l c]. cbv [clock location].
  intros Hu Hp Hh Hs Hq. simpl in Hq.
  run. rewrite Hu. cbv [error data_user].
  explore; try congruence.
  all: use_answers; simpl in Hp, Hh, Hq;
    repeat match goal with
      | E : ok ?res = _, H : context [ok ?res] |- _ => rewrite E in H
      | E : payload ?res = _, H : context [payload ?res] |- _ => rewrite E in H
      end;
    try discriminate.
  all: repeat split.
Qed.

(** C8, at the input where the code departs from the claim: the page
    comes back from the checkout, the user is known, the first reading of
    the profile succeeds and the second one is rejected.  The run then
    ends by a throw after the success flag is set and before
    [replaceState]: the banner is up and the location still carries
    [success=true], so a reload goes through the success handling
    again. *)
Lemma success_param_survives_failed_refetch :
  let env := Samples.profile_lost_at 4
               (Samples.respond 200 (Some (Samples.free_profile 1))) in
  let r := init env (mount Samples.checkout_return 0) in
  completion r = thrown /\
  showSuccess (state (final r)) = true /\
  location (final r) = Samples.checkout_return /\
  success_param (location (final r)) = true /\
  showSuccess
    (state (final (init env (mount (location (final r)) (clock (final r))))))
  = true.
Proof.
  cbv zeta.
  split; [reflexivity|]. split; [reflexivity|]. split; [reflexivity|].
  split; reflexivity.
Qed.

(** *** A profile that could not be read *)

(** C10: when the backend answers the profile request with an error
    status, the profile cell stays [null] through the mount effect, so
    [usageCount] is 0 and [canGenerate] is true: whenever the final state
    renders the dashboard, its action button is the enabled "Generate"
    button, and it does render the dashboard when the user is known and
    the reading of the history comes to its end. *)
Theorem failed_profile_fetch_fails_open env l c :
  (forall t req, not_ok (backend_profile env t req) = true) ->
  let r := init env (mount l c) in
  let token := token_of (supabase_auth_getSession env (S c)) in
  profile (state (final r)) = None /\
  usageCount (state (final r)) = 0 /\
  canGenerate (state (final r)) = true /\
  (forall v, render (state (final r)) = Loaded v ->
             action v = GenerateButton false) /\
  (authenticated (supabase_auth_getUser env c) = true ->
   settles (backend_history env (S (S (S c))) (history_request env token))
   = true ->
   exists v, render (state (final r)) = Loaded v /\
             action v = GenerateButton false).
Proof.
  intros H. cbv zeta.
  run. destruct (supabase_auth_getUser env c) as [[u|] [e|]].
  all: cbv [authenticated error data_user]; explore.
  all: repeat match goal with
       | E : backend_profile _ ?t ?q = _ |- _ =>
           let H' := fresh "H" in
           pose proof (H t q) as H'; rewrite E in H'; clear E; simpl in H'
       end; try discriminate.
  all: try match goal with
       | H' : negb (ok ?res) = true, E : ok ?res = true |- _ =>
           rewrite E in H'; discriminate H'
       end.
  all: split; [reflexivity|split; [reflexivity|split; [reflexivity|split]]].
  all: try (intros v Hv; cbv in Hv; first [discriminate Hv
            | injection Hv as <-; reflexivity]).
  all: intros Ha Hh; try discriminate Ha.
  all: use_answers; simpl in Hh;
    repeat match goal with
      | E : ok ?res = _, H0 : context [ok ?res] |- _ => rewrite E in H0
      | E : payload ?res = _, H0 : context [payload ?res] |- _ => rewrite E in H0
      end;
    try discriminate Hh.
  all: eexists; split; reflexivity.
Qed.

Lemma failed_profile_fetch_fails_open_witness :
  let env := Samples.steady_env Samples.signed_in (Some Samples.reader_session)
               (Samples.respond 500 None)
               (Samples.respond 200 Samples.pdf) in
  let r := init env (mount {| pathname := js "/dashboard"; search := [] |} 0) in
  not_ok (Samples.respond 500 (None : option Profile)) = true /\
  profile (state (final r)) = None /\
  canGenerate (state (final r)) = true /\
  exists v, render (state (final r)) = Loaded v /\
            action v = GenerateButton false.
Proof.
  cbv zeta. split; [reflexivity|].
  destruct (failed_profile_fetch_fails_open
              (Samples.steady_env Samples.signed_in
                 (Some Samples.reader_session)
                 (Samples.respond 500 None)
                 (Samples.respond 200 Samples.pdf))
              {| pathname := js "/dashboard"; search := [] |} 0%nat
              (fun _ _ => eq_refl)) as (Hp & _ & Hc & _ & Hv).
  split; [exact Hp|split; [exact Hc|]].
  exact (Hv eq_refl eq_refl).
Defined.

(** ** The profile trigger *)

Section Trigger.

Import Schema.

Variable now : timestamptz.

Lemma insert_profiles_id_email_Some i e db db' :
  insert_profiles_id_email i e now db = Some db' ->
  exists e' row,
    e = Some e' /\
    profiles db !! i = None /\
    row = {| id := i; email := e'; usage_count := 0; is_subscribed := false;
             stripe_customer_id := None; stripe_subscription_id := None;
             created_at := now; updated_at := now |} /\
    profiles db' = <[i := row]> (profiles db) /\
    auth_users db' = auth_users db /\
    quote_generations db' = quote_generations db.
Proof.
  unfold insert_profiles_id_email.
  destruct e as [e'|]; [|discriminate].
  destruct (profiles db !! i) eqn:Hp; [discriminate|].
  destruct (auth_users db !! i) eqn:Ha; [|discriminate].
  intros [= <-]. exists e'. eexists. repeat split; reflexivity.
Qed.

(** Registration succeeds for an identity that is new, has an e-mail
    address and no profile row yet. *)
Lemma insert_auth_users_succeeds new e db :
  auth_users db !! au_id new = None ->
  profiles db !! au_id new = None ->
  au_email new = Some e ->
  exists db', insert_auth_users new now db = Some db'.
Proof.
  intros Ha Hp He.
  unfold insert_auth_users, handle_new_user, insert_profiles_id_email.
  rewrite Ha, He. simpl. rewrite Hp, lookup_insert_eq. eauto.
Qed.

(** C9: when an identity is registered (the insert into [auth.users]
    goes through), the trigger [handle_new_user] has created the profile
    row of that identity: there was none before, the new one has the same
    identifier and the e-mail of the identity, [usage_count = 0] and
    [is_subscribed = false]; the profiles of the other identities are as
    they were. *)
Theorem new_identity_gets_profile new db db' :
  insert_auth_users new now db = Some db' ->
  auth_users db' !! au_id new = Some new /\
  profiles db !! au_id new = None /\
  (exists row,
     profiles db' !! au_id new = Some row /\
     id row = au_id new /\
     Some (email row) = au_email new /\
     usage_count row = 0 /\
     is_subscribed row = false) /\
  (forall j, j <> au_id new -> profiles db' !! j = profiles db !! j).
Proof.
  unfold insert_auth_users, handle_new_user.
  destruct (auth_users db !! au_id new) eqn:Ha; [discriminate|].
  intros H. apply insert_profiles_id_email_Some in H.
  destruct H as (e' & row & He & Hp & Hrow & Hps & Hau & _).
  simpl in *. split; [|split; [exact Hp|split]].
  - rewrite Hau. apply lookup_insert_eq.
  - exists row. rewrite Hps, lookup_insert_eq, Hrow. simpl.
    repeat split; congruence.
  - intros j Hj. rewrite Hps. apply lookup_insert_ne. congruence.
Qed.

End Trigger.

Lemma new_identity_gets_profile_witness :
  Schema.insert_auth_users Samples.first_identity 1000 Samples.empty_database
  = Some Samples.first_registration /\
  exists row,
    Schema.profiles Samples.first_registration !! 7%N = Some row /\
    Schema.usage_count row = 0 /\ Schema.is_subscribed row = false.
Proof.
  split; [reflexivity|].
  destruct (new_identity_gets_profile 1000 Samples.first_identity
              Samples.empty_database Samples.first_registration eq_refl)
    as (_ & _ & (row & Hrow & _ & _ & Hu & Hs) & _).
  exists row. auto.
Defined.

(** * Further properties *)

(** ** Generation, upgrade and mount *)

(** X1: [handleGenerate] never ends by a throw, whatever the provider
    and the backend answer: every failure inside is caught.  It leaves the
    location alone; when the input passed the two guards the [generating]
    flag is back to false at the end, and when a guard stopped it the
    state is as it was. *)
Theorem handleGenerate_always_settles env w :
  let r := handleGenerate env w in
  completion r = normal tt /\
  location (final r) = location w /\
  (missing_title (state w) = false -> missing_snippet (state w) = false ->
   generating (state (final r)) = false) /\
  (missing_title (state w) = true \/ missing_snippet (state w) = true ->
   state (final r) = state w).
Proof.
  destruct w as [s l c]. cbv zeta.
  explore.
  all: split; [reflexivity|split; [reflexivity|split]].
  all: try (intros; reflexivity).
  all: try (intros; congruence).
  all: try (intros [?|?]; congruence).
Qed.

(** X2: after an ok response whose body is read as a blob,
    [handleGenerate] hands the blob to the browser for download, reads the
    session again and asks for the profile and the history with that
    second token, in this order.  When both readings come to their end
    the cells take what they give.  When one of them does not, the
    generic retry message is shown, although the PDF was delivered, and
    the handler does not wait for the other: the cell of the other
    reading holds what it gives only if it was done first, and is as it
    was otherwise (it is then written after the handler has ended). *)
Theorem successful_generation_downloads_and_refreshes env w res b :
  missing_title (state w) = false ->
  missing_snippet (state w) = false ->
  generation_outcome env w = resolved res ->
  ok res = true ->
  reply_blob (payload res) = Some b ->
  let tok := token_of (supabase_auth_getSession env (clock w)) in
  let again := supabase_auth_getSession env (3 + clock w) in
  let pa := backend_profile env (4 + clock w)
              (profile_request env (token_of again)) in
  let ha := backend_history env (5 + clock w)
              (history_request env (token_of again)) in
  let done_first := overtakes env (4 + clock w) in
  let r := handleGenerate env w in
  calls (trace r)
  = [getSession (supabase_auth_getSession env (clock w));
     fetch (generate_request env tok (state w));
     download b (bookTitle (state w));
     getSession again;
     fetch (profile_request env (token_of again));
     fetch (history_request env (token_of again))]
    ++ (if settles pa && settles ha then []
        else [alert msg_went_wrong_retry]) /\
  profile (state (final r))
  = (if settles ha || done_first
     then profile_after pa (profile (state w))
     else profile (state w)) /\
  history (state (final r))
  = (if settles pa || done_first
     then history_after ha (history (state w))
     else history (state w)) /\
  generating (state (final r)) = false.
Proof.
  unfold generation_outcome. destruct w as [s l c]. cbv [state clock].
  intros Ht Hs Hg Hok Hb. cbv zeta. simpl plus.
  pose proof (ok_not_402 _ Hok) as H402.
  explore; try congruence.
  all: try (rewrite Hg in *; simplify_eq).
  all: try (rewrite Hok in *; discriminate).
  all: try (rewrite H402 in *; discriminate).
  all: try (rewrite Hb in *; simplify_eq).
  all: cbv [calls map snd profile_after history_after settles] in *.
  all: use_tests; simpl in *; try discriminate.
  all: repeat match goal with
       | E : ok ?r = _ |- _ => rewrite E; clear E
       | E : payload ?r = _ |- _ => rewrite E; clear E
       | E : overtakes _ _ = _ |- _ => rewrite E; clear E
       end;
    destruct s;
    (split; [reflexivity|split; [reflexivity|split; reflexivity]]).
Qed.

(** X3: on an error status other than 402, one request was sent, only
    the [generating] flag was touched and there is one alert, which
    depends on the body: ["Error: "] followed by the [detail] of a JSON
    value (["undefined"] when it has none), ["Error: Unknown error"] when
    the body is not JSON, and the generic retry message when the body is
    the JSON [null], whose [detail] cannot be read. *)
Theorem error_status_alert env w res :
  missing_title (state w) = false ->
  missing_snippet (state w) = false ->
  generation_outcome env w = resolved res ->
  ok res = false ->
  (status res =? 402)%N = false ->
  let r := handleGenerate env w in
  alerts (trace r)
  = [match reply_json (payload res) with
     | not_json => js "Error: Unknown error"
     | json_null => js "Something went wrong. Please try again."
     | json_value err =>
         js "Error: " ++ default (js "undefined") (detail err)
     end] /\
  length (requests (trace r)) = 1%nat /\
  state (final r) = with_generating false (state w).
Proof.
  unfold generation_outcome. destruct w as [s l c]. cbv [state clock].
  intros Ht Hs Hg Hok H402. cbv zeta.
  explore; try congruence.
  all: try (rewrite Hg in *; simplify_eq).
  all: try (rewrite Hok in *; discriminate).
  all: repeat match goal with
       | E1 : ?x = _, E2 : ?x = _ |- _ => rewrite E1 in E2; simplify_eq
       end.
  all: split; [|split; [reflexivity|destruct s; reflexivity]].
  all: cbv [msg_error];
    repeat match goal with
      | E : detail _ = _ |- _ => rewrite E
      end; reflexivity.
Qed.

(** X4: when the generation request is rejected, or answered ok with a
    body that cannot be read, the one alert is the generic retry message;
    one request was sent and only the [generating] flag was touched. *)
Theorem unanswered_generation_suggests_retry env w :
  missing_title (state w) = false ->
  missing_snippet (state w) = false ->
  (generation_outcome env w = rejected \/
   exists res, generation_outcome env w = resolved res /\ ok res = true /\
               reply_blob (payload res) = None) ->
  let r := handleGenerate env w in
  alerts (trace r) = [msg_went_wrong_retry] /\
  length (requests (trace r)) = 1%nat /\
  state (final r) = with_generating false (state w).
Proof.
  unfold generation_outcome. destruct w as [s l c]. cbv [state clock].
  intros Ht Hs Hg. cbv zeta.
  explore; try congruence.
  all: destruct Hg as [Hg|(res' & Hg & Hok & Hb)].
  all: try (rewrite Hg in *; simplify_eq).
  all: try (pose proof (ok_not_402 _ Hok); congruence).
  all: try (rewrite Hok in *; discriminate).
  all: try congruence.
  all: destruct s; repeat split.
Qed.

(** X5: [handleUpgrade] never ends by a throw and always puts the
    [upgrading] flag back to false.  It reads the session and sends one
    request, the checkout request.  The browser is sent to the [url] of
    the JSON answer when there is a non-empty one, whatever the status of
    the response (the handler does not look at it); without a [url] the
    message is "Checkout failed", and when the call is rejected or the
    body is not JSON or is the JSON [null] it is "Something went
    wrong". *)
Theorem handleUpgrade_outcomes env w :
  let tok := token_of (supabase_auth_getSession env (clock w)) in
  let answer := backend_checkout env (S (clock w)) (checkout_request env tok) in
  let r := handleUpgrade env w in
  completion r = normal tt /\
  state (final r) = with_upgrading false (state w) /\
  requests (trace r) = [checkout_request env tok] /\
  exists last,
    calls (trace r)
    = [getSession (supabase_auth_getSession env (clock w));
       fetch (checkout_request env tok); last] /\
    last = match answer with
           | rejected => alert (js "Something went wrong.")
           | resolved res =>
               match payload res with
               | not_json => alert (js "Something went wrong.")
               | json_null => alert (js "Something went wrong.")
               | json_value data =>
                   match checkout_url data with
                   | Some u =>
                       if truthy u then location_href u
                       else alert (js "Checkout failed. Please try again.")
                   | None => alert (js "Checkout failed. Please try again.")
                   end
               end
           end.
Proof.
  destruct w as [s l c]. cbv zeta. cbv [state clock].
  explore.
  all: (split; [reflexivity|split; [destruct s; reflexivity|
        split; [reflexivity|]]]).
  all: eexists; split; [reflexivity|reflexivity].
Qed.

(** X6: the mount effect has no handler for a failed reading: when the
    first reading of the profile or of the history does not come to its
    end (rejected call, or ok response that is not JSON), the effect ends
    by a throw after four calls, [loading] stays true, so the page keeps
    the loading view, and the success parameter is neither shown nor
    stripped. *)
Theorem init_stays_loading_when_first_read_fails env l c u :
  supabase_auth_getUser env c = {| data_user := Some u; error := None |} ->
  let token := token_of (supabase_auth_getSession env (S c)) in
  settles (backend_profile env (S (S c)) (profile_request env token))
  && settles (backend_history env (S (S (S c))) (history_request env token))
  = false ->
  let r := init env (mount l c) in
  completion r = thrown /\
  length (trace r) = 4%nat /\
  loading (state (final r)) = true /\
  render (state (final r)) = LoadingView /\
  showSuccess (state (final r)) = false /\
  location (final r) = l.
Proof.
  cbv zeta. intros Hu Hf.
  run. rewrite Hu. cbv [error data_user].
  explore.
  all: cbv [settles] in Hf; use_answers; use_tests; simpl in Hf;
    try discriminate Hf.
  all: repeat split.
Qed.

(** X7: a load without [success=true] in the query: once the user is
    known and both readings have come to their end, the effect ends
    normally after exactly four calls (user, session, profile, history),
    the cells hold the user and what the readings gave, [loading] is
    false, the success flag is untouched and the location is as it
    was. *)
Theorem init_without_success_param env l c u :
  supabase_auth_getUser env c = {| data_user := Some u; error := None |} ->
  let token := token_of (supabase_auth_getSession env (S c)) in
  let pa := backend_profile env (S (S c)) (profile_request env token) in
  let ha := backend_history env (S (S (S c))) (history_request env token) in
  settles pa = true ->
  settles ha = true ->
  success_param l = false ->
  let r := init env (mount l c) in
  completion r = normal tt /\
  calls (trace r)
  = [getUser (supabase_auth_getUser env c);
     getSession (supabase_auth_getSession env (S c));
     fetch (profile_request env token);
     fetch (history_request env token)] /\
  state (final r)
  = with_loading false
      (with_history (history_after ha [])
         (with_profile (profile_after pa None)
            (with_user (Some u) initial_state))) /\
  location (final r) = l.
Proof.
  cbv zeta. intros Hu Hp Hh Hs.
  run. rewrite Hu. cbv [error data_user].
  explore; try congruence.
  all: cbv [settles] in Hp, Hh; use_answers; use_tests; simpl in Hp, Hh;
    try discriminate.
  all: cbv [calls map snd profile_after history_after];
    repeat match goal with
      | E : ok ?r = _ |- _ => rewrite E; clear E
      | E : payload ?r = _ |- _ => rewrite E; clear E
      end.
  all: rewrite ?Hu; repeat split.
Qed.

(** ** The view and the guards *)

(** X10: the loaded dashboard of a profile with a count that is not
    negative: the PRO badge is shown exactly for a subscriber, the usage
    banner is hidden exactly for a subscriber, and the button is "Upgrade"
    exactly when the banner says that the free generation is used,
    "Generate" otherwise. *)
Theorem banner_and_button_agree s p :
  loading s = false ->
  profile s = Some p ->
  0 <= usage_count p ->
  exists v,
    render s = Loaded v /\
    pro_badge v = is_subscribed p /\
    (usage_banner v = None <-> is_subscribed p = true) /\
    (action v = UpgradeButton (upgrading s)
     <-> usage_banner v = Some free_generation_used) /\
    (action v = GenerateButton (generating s)
     <-> usage_banner v <> Some free_generation_used).
Proof.
  intros Hl Hp Hn. unfold render. rewrite Hl. eexists. split; [reflexivity|].
  unfold subscribed, canGenerate, usageCount. rewrite Hp. simpl.
  destruct (is_subscribed p); simpl.
  - repeat split; intros; try first [reflexivity|discriminate|congruence].
  - destruct (Z.eqb_spec (usage_count p) 0) as [E0|E0];
      destruct (Z.ltb_spec (usage_count p) 1) as [E1|E1]; try lia.
    all: repeat split; intros; first [reflexivity|discriminate|congruence].
Qed.

Lemma banner_and_button_agree_witness :
  exists v,
    render (state (Samples.ready (Some (Samples.free_profile 1)))) = Loaded v /\
    action v = UpgradeButton false /\
    usage_banner v = Some free_generation_used.
Proof.
  destruct (banner_and_button_agree
              (state (Samples.ready (Some (Samples.free_profile 1))))
              (Samples.free_profile 1) eq_refl eq_refl ltac:(simpl; lia))
    as (v & Hv & _ & _ & Hu & _).
  exists v. split; [exact Hv|].
  assert (Hb : usage_banner v = Some free_generation_used).
  { injection Hv as <-. reflexivity. }
  split; [apply Hu, Hb|exact Hb].
Defined.

Lemma trimStart_split s :
  exists pre, s = pre ++ trimStart s /\ Forall white pre.
Proof.
  induction s as [|c s IH]; simpl.
  - exists []. split; [reflexivity|constructor].
  - destruct (is_white_space c) eqn:Hc.
    + destruct IH as (pre & Hs & Hpre). exists (c :: pre). split.
      * simpl. congruence.
      * constructor; assumption.
    + exists []. split; [reflexivity|constructor].
Qed.

Lemma trimStart_head s c r :
  trimStart s = c :: r -> is_white_space c = false.
Proof.
  induction s as [|a s IH]; simpl; [discriminate|].
  destruct (is_white_space a) eqn:Ha; [exact IH|].
  intros [= <- _]. exact Ha.
Qed.

Lemma trimStart_white s : Forall white s -> trimStart s = [].
Proof.
  induction 1 as [|c s Hc _ IH]; simpl; [reflexivity|].
  unfold white in Hc. rewrite Hc. exact IH.
Qed.

Lemma trimStart_snoc l c :
  is_white_space c = false -> trimStart (l ++ [c]) = trimStart l ++ [c].
Proof.
  intros Hc. induction l as [|a l IH]; simpl.
  - rewrite Hc. reflexivity.
  - destruct (is_white_space a); [exact IH|reflexivity].
Qed.

Lemma trimStart_idempotent s : trimStart (trimStart s) = trimStart s.
Proof.
  destruct (trimStart s) as [|c r] eqn:E; [reflexivity|].
  simpl. rewrite (trimStart_head _ _ _ E). reflexivity.
Qed.

Lemma trimEnd_cons c r :
  is_white_space c = false -> trimEnd (c :: r) = c :: trimEnd r.
Proof.
  intros Hc. unfold trimEnd.
  rewrite reverse_cons, (trimStart_snoc _ _ Hc), reverse_app.
  reflexivity.
Qed.

Lemma trimEnd_split s :
  exists post, s = trimEnd s ++ post /\ Forall white post.
Proof.
  destruct (trimStart_split (reverse s)) as (pre & Hs & Hpre).
  exists (reverse pre). split.
  - unfold trimEnd. rewrite <- reverse_app, <- Hs, reverse_involutive.
    reflexivity.
  - apply Forall_reverse. exact Hpre.
Qed.

Lemma trimEnd_idempotent s : trimEnd (trimEnd s) = trimEnd s.
Proof.
  unfold trimEnd. rewrite reverse_involutive, trimStart_idempotent.
  reflexivity.
Qed.

Lemma trim_cases s :
  trimStart s = [] /\ trim s = [] \/
  exists c r, trimStart s = c :: r /\ is_white_space c = false /\
              trim s = c :: trimEnd r.
Proof.
  unfold trim. destruct (trimStart s) as [|c r] eqn:E.
  - left. split; reflexivity.
  - right. exists c, r. pose proof (trimStart_head _ _ _ E) as Hc.
    split; [reflexivity|split; [exact Hc|]]. apply trimEnd_cons, Hc.
Qed.

(** [trim] takes away a prefix and a suffix of white space, and what is
    left neither starts nor ends with white space. *)
Theorem trim_removes_white_ends s :
  (exists pre post,
     s = pre ++ trim s ++ post /\ Forall white pre /\ Forall white post) /\
  (forall c, head (trim s) = Some c -> is_white_space c = false) /\
  (forall c, last (trim s) = Some c -> is_white_space c = false).
Proof.
  split; [|split].
  - destruct (trimStart_split s) as (pre & Hs & Hpre).
    destruct (trimEnd_split (trimStart s)) as (post & Ht & Hpost).
    exists pre, post. unfold trim. rewrite <- Ht. auto.
  - intros c. destruct (trim_cases s) as [[_ ->]|(a & r & _ & Ha & ->)];
      simpl; [discriminate|]. intros [= <-]. exact Ha.
  - intros c. unfold trim, trimEnd. rewrite last_reverse.
    destruct (trimStart (reverse (trimStart s))) as [|a r] eqn:E;
      simpl; [discriminate|].
    intros [= <-]. exact (trimStart_head _ _ _ E).
Qed.

Theorem trim_idempotent s : trim (trim s) = trim s.
Proof.
  destruct (trim_cases s) as [[_ ->]|(c & r & _ & Hc & ->)]; [reflexivity|].
  unfold trim at 1. simpl trimStart. rewrite Hc.
  rewrite (trimEnd_cons _ _ Hc), trimEnd_idempotent. reflexivity.
Qed.

Theorem trim_empty_iff_blank s : trim s = [] <-> Forall white s.
Proof.
  split.
  - intros H. destruct (trim_removes_white_ends s) as ((pre & post & Hs & Hp & Hq) & _).
    rewrite H in Hs. rewrite Hs. apply Forall_app. auto.
  - intros H. unfold trim. rewrite (trimStart_white _ H). reflexivity.
Qed.

(** X11: the guards of [handleGenerate] stop exactly the blank input:
    the title guard fires iff the input type is [book_title] and the
    title holds nothing but white space (the empty title included), and
    likewise the snippet guard for [text_snippet]. *)
Theorem validation_rejects_exactly_blank_input s :
  (missing_title s = true
   <-> inputType s = book_title /\ Forall white (bookTitle s)) /\
  (missing_snippet s = true
   <-> inputType s = text_snippet /\ Forall white (snippet s)).
Proof.
  unfold missing_title, missing_snippet.
  split; destruct (inputType s); rewrite <- ?trim_empty_iff_blank.
  all: try (split; [discriminate|intros [? _]; discriminate]).
  all: match goal with
       | |- context [trim ?x] => destruct (trim x); simpl
       end.
  all: split; try (intros; split; reflexivity); try discriminate;
    try (intros [_ ?]; discriminate).
  all: try reflexivity.
Qed.

(** ** The other pages *)

(** X12: the landing page shows the "Login / Sign Up" link from the
    start, while the answer of the provider is pending; its effect makes
    the one call [getUser], and afterwards the page shows "Resume to
    Dashboard" exactly when the answer holds a user (the [error] of the
    answer is not read). *)
Theorem landing_shows_login_until_user_known env t :
  let r := LandingPage.getUser_effect env LandingPage.initial_state t in
  LandingPage.render LandingPage.initial_state
  = LandingPage.LoginSignUp (js "/login") /\
  Page.logged r
  = [(LandingPage.initial_state, LandingPage.getUser (env t))] /\
  (LandingPage.render (Page.cells r)
   = LandingPage.ResumeToDashboard (js "/dashboard")
   <-> is_Some (data_user (env t))) /\
  (LandingPage.render (Page.cells r) = LandingPage.LoginSignUp (js "/login")
   <-> data_user (env t) = None).
Proof.
  cbv zeta. run_page. split; [reflexivity|split; [reflexivity|]].
  destruct (data_user (env t)) as [u|]; simpl; split; split;
    intros H; try discriminate; try reflexivity; eauto.
  destruct H as [x Hx]. discriminate.
Qed.

(** X13: the sign-in page shows "Loading..." from the start; its effect
    makes the one call [getUser] from that state, and afterwards the page
    shows the welcome panel with the e-mail when the answer holds a user
    and the empty sign-in form otherwise. *)
Theorem auth_page_loads_before_it_shows env t :
  let r := AuthPage.checkUser env AuthPage.initial_state t in
  let answer := AuthPage.supabase_auth_getUser env t in
  AuthPage.render AuthPage.initial_state = AuthPage.Loading /\
  Page.logged r = [(AuthPage.initial_state, AuthPage.getUser answer)] /\
  AuthPage.render (Page.cells r)
  = match data_user answer with
    | Some u => AuthPage.WelcomeBack (user_email u)
    | None => AuthPage.AuthForm false [] []
    end.
Proof.
  cbv zeta. run_page. split; [reflexivity|split; [reflexivity|]].
  destruct (data_user (AuthPage.supabase_auth_getUser env t)); reflexivity.
Qed.

(** X14: [handleSubmit] prevents the default submit, then makes one call
    to the provider with the e-mail and password of the form, [signUp] in
    sign-up mode and [signInWithPassword] otherwise, from a state that
    shows "Loading...".  It goes to ["/dashboard"] exactly when a sign-in
    comes back without error; an error is shown with the provider's
    message; at the end only [loading] (false) may differ from the state
    it started in, so the [user] cell is not set by a sign-in. *)
Theorem handleSubmit_outcomes env s t :
  let r := AuthPage.handleSubmit env s t in
  let up := AuthPage.supabase_auth_signUp env (S t)
              (AuthPage.email s) (AuthPage.password s) in
  let sign_in := AuthPage.supabase_auth_signInWithPassword env (S t)
              (AuthPage.email s) (AuthPage.password s) in
  Page.cells r = AuthPage.with_loading false s /\
  (exists call outcome,
     Page.logged r
     = [(s, AuthPage.preventDefault);
        (AuthPage.with_loading true s, call);
        (AuthPage.with_loading true s, outcome)] /\
     call = (if AuthPage.isSignUp s
             then AuthPage.signUp (AuthPage.email s) (AuthPage.password s) up
             else AuthPage.signInWithPassword (AuthPage.email s)
                    (AuthPage.password s) sign_in)) /\
  AuthPage.render (AuthPage.with_loading true s) = AuthPage.Loading /\
  (AuthPage.router_push (js "/dashboard") ∈ AuthPage.calls (Page.logged r)
   <-> AuthPage.isSignUp s = false /\ sign_in = None) /\
  (forall e,
     (if AuthPage.isSignUp s then up else sign_in) = Some e ->
     AuthPage.alert (AuthPage.message e) ∈ AuthPage.calls (Page.logged r)).
Proof.
  cbv zeta. run_page.
  destruct (AuthPage.isSignUp s) eqn:Hm.
  - destruct (AuthPage.supabase_auth_signUp env (S t) (AuthPage.email s)
                (AuthPage.password s)) as [e|] eqn:Hu.
    all: split; [reflexivity|split; [eexists; eexists; split; reflexivity|]].
    all: split; [reflexivity|split].
    all: try (split; [|intros [? _]; discriminate]).
    all: try (intros H; repeat (apply elem_of_cons in H as [H|H]);
              try discriminate; apply elem_of_nil in H; contradiction).
    all: intros e' He'; try discriminate. 
    injection He' as <-. apply list_elem_of_further, list_elem_of_further,
      list_elem_of_here.
  - destruct (AuthPage.supabase_auth_signInWithPassword env (S t)
                (AuthPage.email s) (AuthPage.password s)) as [e|] eqn:Hu.
    all: split; [reflexivity|split; [eexists; eexists; split; reflexivity|]].
    all: split; [reflexivity|split].
    all: try (intros e' He'; try discriminate;
              injection He' as <-; apply list_elem_of_further,
                list_elem_of_further, list_elem_of_here).
    + split; [|intros [_ ?]; discriminate].
      intros H; repeat (apply elem_of_cons in H as [H|H]);
        try discriminate; apply elem_of_nil in H; contradiction.
    + split; [auto|intros _].
      apply list_elem_of_further, list_elem_of_further, list_elem_of_here.
Qed.

Lemma successful_generation_downloads_and_refreshes_witness :
  let r := handleGenerate (MoreSamples.working 1)
             (Samples.ready (Some (Samples.free_profile 0))) in
  generation_succeeded
    (generation_outcome (MoreSamples.working 1)
       (Samples.ready (Some (Samples.free_profile 0)))) = true /\
  length (calls (trace r)) = 6%nat /\
  usageCount (state (final r)) = 1.
Proof.
  cbv zeta. split; [reflexivity|].
  destruct (successful_generation_downloads_and_refreshes
              (MoreSamples.working 1)
              (Samples.ready (Some (Samples.free_profile 0)))
              {| status := 200; payload := Samples.pdf |}
              [37; 80; 68; 70]%N
              eq_refl eq_refl eq_refl eq_refl eq_refl) as (Hc & Hp & _).
  split.
  - rewrite Hc. reflexivity.
  - unfold usageCount. rewrite Hp. reflexivity.
Defined.

Lemma error_status_alert_witness :
  alerts (trace (handleGenerate MoreSamples.null_error
                   (Samples.ready (Some (Samples.free_profile 0)))))
  = [js "Something went wrong. Please try again."].
Proof.
  destruct (error_status_alert MoreSamples.null_error
              (Samples.ready (Some (Samples.free_profile 0)))
              {| status := 500;
                 payload := {| reply_json := json_null;
                               reply_blob := Some [] |} |}
              eq_refl eq_refl eq_refl eq_refl eq_refl) as (Ha & _).
  exact Ha.
Defined.

Lemma unanswered_generation_suggests_retry_witness :
  alerts (trace (handleGenerate MoreSamples.unreachable_generate
                   (Samples.ready (Some (Samples.free_profile 0)))))
  = [msg_went_wrong_retry].
Proof.
  destruct (unanswered_generation_suggests_retry
              MoreSamples.unreachable_generate
              (Samples.ready (Some (Samples.free_profile 0)))
              eq_refl eq_refl (or_introl eq_refl)) as (Ha & _).
  exact Ha.
Defined.

Lemma init_stays_loading_when_first_read_fails_witness :
  let r := init MoreSamples.unreachable_profile
             (mount MoreSamples.plain_dashboard 0) in
  completion r = thrown /\ render (state (final r)) = LoadingView.
Proof.
  cbv zeta.
  destruct (init_stays_loading_when_first_read_fails
              MoreSamples.unreachable_profile MoreSamples.plain_dashboard
              0%nat Samples.reader eq_refl eq_refl)
    as (Hc & _ & _ & Hr & _).
  split; [exact Hc|exact Hr].
Defined.

Lemma init_without_success_param_witness :
  let r := init (MoreSamples.working 1)
             (mount MoreSamples.plain_dashboard 0) in
  length (calls (trace r)) = 4%nat /\
  location (final r) = MoreSamples.plain_dashboard.
Proof.
  cbv zeta.
  destruct (init_without_success_param (MoreSamples.working 1)
              MoreSamples.plain_dashboard 0%nat Samples.reader
              eq_refl eq_refl eq_refl eq_refl) as (_ & Hc & _ & Hl).
  split; [rewrite Hc; reflexivity|exact Hl].
Defined.

Lemma success_param_stripped_after_refetch_witness :
  let r := init (MoreSamples.working 1) (mount Samples.checkout_return 0) in
  success_param Samples.checkout_return = true /\
  success_param (location (final r)) = false.
Proof.
  cbv zeta. split; [reflexivity|].
  destruct (success_param_stripped_after_refetch (MoreSamples.working 1)
              (mount Samples.checkout_return 0) Samples.reader
              eq_refl eq_refl eq_refl eq_refl eq_refl) as (_ & Hs & _).
  exact Hs.
Defined.

Lemma params_get_first k pre v rest :
  Forall (fun kv : JsString * JsString => kv.1 <> k) pre ->
  params_get k (pre ++ (k, v) :: rest) = Some v.
Proof.
  induction 1 as [|[k' v'] pre Hk _ IH]; simpl.
  - rewrite decide_True by reflexivity. reflexivity.
  - rewrite decide_False by exact Hk. exact IH.
Qed.

Lemma params_get_none k l :
  Forall (fun kv : JsString * JsString => kv.1 <> k) l ->
  params_get k l = None.
Proof.
  induction 1 as [|[k' v'] pre Hk _ IH]; simpl; [reflexivity|].
  rewrite decide_False by exact Hk. exact IH.
Qed.

(** X9: only the first [success] parameter of the query counts, and its
    value has to be exactly ["true"]: with no [success] key before it, a
    pair [success=v] decides the test by [v] alone, whatever follows; and
    a query without the key gives no success handling. *)
Theorem success_param_first_wins path pre :
  Forall (fun kv : JsString * JsString => kv.1 <> js "success") pre ->
  success_param {| pathname := path; search := pre |} = false /\
  forall v rest,
    success_param
      {| pathname := path; search := pre ++ (js "success", v) :: rest |}
    = bool_decide (v = js "true").
Proof.
  intros H. unfold success_param. simpl. split.
  - rewrite (params_get_none _ _ H). reflexivity.
  - intros v rest. rewrite (params_get_first _ _ v rest H).
    apply bool_decide_ext. split; congruence.
Qed.

Lemma success_param_first_wins_witness :
  success_param
    {| pathname := js "/dashboard";
       search := [(js "plan", js "pro"); (js "success", js "false");
                  (js "success", js "true")] |}
  = false.
Proof.
  destruct (success_param_first_wins (js "/dashboard")
              [(js "plan", js "pro")]) as (_ & H).
  - repeat constructor. simpl. vm_compute. discriminate.
  - exact (H (js "false") [(js "success", js "true")]).
Defined.

(** ** Policies, cascades and the second trigger *)

Section SchemaStatements.
Import Schema Policies.

(** X15: what the schema asks of a registration.  The registration of
    an identity without an e-mail address fails: the trigger's insert
    violates [not null] on [profiles.email], and that aborts the
    statement.  So does a registration under an identifier that a profile
    already has.  A registration that goes through was therefore made
    for an identifier new in [auth.users] and in [profiles], with an
    e-mail address. *)
Theorem registration_needs_email_and_free_profile new now db :
  (au_email new = None -> insert_auth_users new now db = None) /\
  (is_Some (profiles db !! au_id new) ->
   insert_auth_users new now db = None) /\
  (is_Some (insert_auth_users new now db) ->
   auth_users db !! au_id new = None /\
   profiles db !! au_id new = None /\
   is_Some (au_email new)).
Proof.
  unfold insert_auth_users, handle_new_user, insert_profiles_id_email.
  destruct (auth_users db !! au_id new) eqn:Ha; simpl.
  - split; [reflexivity|split; [reflexivity|]].
    intros [x Hx]; discriminate.
  - destruct (au_email new) as [e|]; simpl.
    + rewrite lookup_insert_eq.
      destruct (profiles db !! au_id new) eqn:Hp.
      * split; [discriminate|split; [reflexivity|]].
        intros [x Hx]; discriminate.
      * split; [discriminate|split; [intros [x Hx]; discriminate|]].
        intros _; repeat split; eauto.
    + split; [reflexivity|split; [reflexivity|]].
      intros [x Hx]; discriminate.
Qed.

(** X17: under row-level security a caller reads only rows it owns:
    each profile it gets has its own identifier, each generation its own
    [user_id], its own profile is not hidden, and a caller that is not
    signed in gets nothing. *)
Theorem select_shows_only_own_rows uid db :
  (forall k r, select_profiles uid db !! k = Some r ->
     profiles db !! k = Some r /\ uid = Some (id r)) /\
  (forall k g, select_quote_generations uid db !! k = Some g ->
     quote_generations db !! k = Some g /\ uid = Some (qg_user_id g)) /\
  (forall k r, uid = Some (id r) -> profiles db !! k = Some r ->
     select_profiles uid db !! k = Some r) /\
  (uid = None ->
   select_profiles uid db = ∅ /\ select_quote_generations uid db = ∅).
Proof.
  unfold select_profiles, select_quote_generations, own_profile,
    own_generation.
  split; [|split; [|split]].
  - intros k r H. apply map_lookup_filter_Some in H as [H1 H2].
    simpl in H2. apply bool_decide_eq_true_1 in H2. auto.
  - intros k g H. apply map_lookup_filter_Some in H as [H1 H2].
    simpl in H2. apply bool_decide_eq_true_1 in H2. auto.
  - intros k r Hu H. apply map_lookup_filter_Some. split; [exact H|].
    simpl. apply bool_decide_eq_true_2, Hu.
  - intros ->. split; apply map_empty; intros k.
    all: apply map_lookup_filter_None; right; intros x _ H; simpl in H.
    all: first [discriminate H|apply bool_decide_eq_true_1 in H; discriminate].
Qed.

End SchemaStatements.

Section SchemaInvariants.
Import Schema Policies Statements.

Lemma stripe_customer_free_spec i c db :
  stripe_customer_free i c db = true <->
  (is_Some c ->
   forall k r, profiles db !! k = Some r -> k = i \/ stripe_customer_id r <> c).
Proof.
  unfold stripe_customer_free. destruct c as [c|].
  - rewrite bool_decide_eq_true, map_Forall_lookup. split; [auto|].
    intros H. apply H. eauto.
  - split; [|reflexivity]. intros _ [x Hx]. discriminate.
Qed.

Lemma select_profiles_lookup uid db i r :
  select_profiles uid db !! i = Some r <->
  profiles db !! i = Some r /\ uid = Some (id r).
Proof.
  unfold select_profiles, own_profile.
  rewrite map_lookup_filter_Some. simpl.
  rewrite bool_decide_eq_true. reflexivity.
Qed.

Lemma update_profiles_Some uid i a now db db' :
  update_profiles uid i a now db = Some db' ->
  db' = db /\ select_profiles uid db !! i = None \/
  exists old,
    profiles db !! i = Some old /\ uid = Some (id old) /\
    is_integer (usage_count (assign a old)) = true /\
    stripe_customer_free i (stripe_customer_id (assign a old)) db = true /\
    db' = {| auth_users := auth_users db;
             profiles := <[i := update_updated_at (assign a old) now]>
                           (profiles db);
             quote_generations := quote_generations db |}.
Proof.
  unfold update_profiles.
  destruct (select_profiles uid db !! i) as [old|] eqn:Hs.
  - apply select_profiles_lookup in Hs as [Hold Hu].
    destruct (is_integer _ && stripe_customer_free _ _ _) eqn:Hc;
      [|discriminate].
    apply andb_true_iff in Hc as [Hi Hf]. intros [= <-].
    right. exists old. auto.
  - intros [= <-]. left. auto.
Qed.

(** X18: an update of [profiles] by a caller touches no other table and
    no other row; it changes nothing at all when the row is not the
    caller's; and the row it writes carries [updated_at = now()] whatever
    the set list assigned to that column, with the identifier
    unchanged. *)
Theorem update_stamps_and_isolates uid i a now db db' :
  update_profiles uid i a now db = Some db' ->
  auth_users db' = auth_users db /\
  quote_generations db' = quote_generations db /\
  (forall k, k <> i -> profiles db' !! k = profiles db !! k) /\
  (forall r, profiles db !! i = Some r -> uid <> Some (id r) -> db' = db) /\
  (forall r, profiles db !! i = Some r -> uid = Some (id r) ->
     exists r',
       profiles db' !! i = Some r' /\
       r' = update_updated_at (assign a r) now /\
       updated_at r' = now /\ id r' = id r).
Proof.
  intros H. apply update_profiles_Some in H
    as [[-> Hs]|(old & Hold & Hu & _ & _ & ->)]; simpl.
  - repeat split; auto.
    intros r Hr Hu. exfalso.
    assert (Hx : select_profiles uid db !! i = Some r)
      by (apply select_profiles_lookup; auto).
    congruence.
  - repeat split.
    + intros k Hk. apply lookup_insert_ne. congruence.
    + intros r Hr Hn. congruence.
    + intros r Hr _. assert (r = old) as -> by congruence.
      eexists. rewrite lookup_insert_eq. repeat split.
Qed.

Lemma insert_auth_users_Some new now db db' :
  insert_auth_users new now db = Some db' ->
  exists e,
    au_email new = Some e /\
    auth_users db !! au_id new = None /\
    profiles db !! au_id new = None /\
    db' = {| auth_users := <[au_id new := new]> (auth_users db);
             profiles :=
               <[au_id new :=
                   {| id := au_id new; email := e; usage_count := 0;
                      is_subscribed := false; stripe_customer_id := None;
                      stripe_subscription_id := None;
                      created_at := now; updated_at := now |}]>
                 (profiles db);
             quote_generations := quote_generations db |}.
Proof.
  unfold insert_auth_users, handle_new_user.
  destruct (auth_users db !! au_id new) eqn:Ha; [discriminate|].
  intros H. apply insert_profiles_id_email_Some in H
    as (e & row & He & Hp & Hrow & Hps & Hau & Hqg).
  simpl in *. exists e. repeat split; auto.
  destruct db' as [au' pr' qg']. simpl in *. subst. reflexivity.
Qed.

Lemma insert_quote_generations_Some uid fresh v now db db' :
  insert_quote_generations uid fresh v now db = Some db' ->
  exists i u t it c,
    column_value fresh (gv_id v) = Some i /\
    gv_user_id v = Some u /\
    gv_input_type v = Some t /\
    input_type_of_text t = Some it /\
    column_value now (gv_created_at v) = Some c /\
    uid = Some u /\
    is_Some (profiles db !! u) /\
    quote_generations db !! i = None /\
    db' = {| auth_users := auth_users db;
             profiles := profiles db;
             quote_generations :=
               <[i := {| qg_id := i; qg_user_id := u;
                         qg_input_type := it;
                         qg_book_title := gv_book_title v;
                         qg_author := gv_author v;
                         qg_input_text := gv_input_text v;
                         qg_quotes_data := gv_quotes_data v;
                         qg_created_at := c |}]>
                 (quote_generations db) |}.
Proof.
  unfold insert_quote_generations, own_generation.
  destruct (column_value fresh (gv_id v)) as [i|]; [|discriminate].
  destruct (gv_user_id v) as [u|]; [|discriminate].
  destruct (gv_input_type v) as [t|]; [|discriminate].
  simpl.
  destruct (input_type_of_text t) as [it|] eqn:Hit; [|discriminate].
  destruct (column_value now (gv_created_at v)) as [c|]; [|discriminate].
  simpl. case_bool_decide as Hu; [|discriminate].
  destruct (profiles db !! u) eqn:Hp; [|discriminate].
  destruct (quote_generations db !! i) eqn:Hq; [discriminate|].
  intros [= <-]. exists i, u, t, it, c. repeat split; eauto.
Qed.

Lemma register_keeps_sound new now db db' :
  sound db -> insert_auth_users new now db = Some db' -> sound db'.
Proof.
  intros [(Ka & Kp & Kq) (Rp & Rq) Ip Uc] H.
  apply insert_auth_users_Some in H as (e & He & Ha & Hp & ->).
  split; [split; [|split]|split| |]; simpl.
  - apply map_Forall_insert_2; auto.
  - apply map_Forall_insert_2; auto.
  - exact Kq.
  - apply map_Forall_lookup. intros k r Hk. simpl in *.
    apply lookup_insert_is_Some'.
    apply lookup_insert_Some in Hk as [[-> _]|[Hne Hk]]; [auto|].
    right. exact (Rp k r Hk).
  - apply map_Forall_lookup. intros k g Hk. simpl in *.
    apply lookup_insert_is_Some'. right. exact (Rq k g Hk).
  - apply map_Forall_lookup. intros k r Hk. simpl in *.
    apply lookup_insert_is_Some'.
    apply lookup_insert_Some in Hk as [[-> _]|[Hne Hk]]; [auto|].
    right. exact (Ip k r Hk).
  - intros k1 k2 r1 r2 H1 H2 Hs Heq. simpl in *.
    apply lookup_insert_Some in H1 as [[<- <-]|[Hn1 H1]];
      [destruct Hs as [x Hx]; discriminate|].
    apply lookup_insert_Some in H2 as [[<- <-]|[Hn2 H2]].
    + simpl in Heq. rewrite Heq in Hs. destruct Hs as [x Hx]. discriminate.
    + exact (Uc k1 k2 r1 r2 H1 H2 Hs Heq).
Qed.

Lemma unregister_keeps_sound i db :
  sound db -> sound (delete_auth_users i db).
Proof.
  intros [(Ka & Kp & Kq) (Rp & Rq) Ip Uc].
  split; [split; [|split]|split| |]; simpl.
  - apply map_Forall_delete, Ka.
  - apply map_Forall_delete, Kp.
  - apply map_Forall_lookup. intros k g Hk. simpl in *.
    apply map_lookup_filter_Some in Hk as [Hk _]. exact (Kq k g Hk).
  - apply map_Forall_lookup. intros k r Hk. simpl in *.
    apply lookup_delete_Some in Hk as [Hne Hk].
    rewrite lookup_delete_ne by exact Hne. exact (Rp k r Hk).
  - apply map_Forall_lookup. intros k g Hk. simpl in *.
    apply map_lookup_filter_Some in Hk as [Hk Hu]. simpl in Hu.
    rewrite lookup_delete_ne by congruence. exact (Rq k g Hk).
  - apply map_Forall_lookup. intros k r Hk. simpl in *.
    apply lookup_delete_Some in Hk as [Hne Hk].
    rewrite lookup_delete_ne by exact Hne. exact (Ip k r Hk).
  - intros k1 k2 r1 r2 H1 H2. simpl in *.
    apply lookup_delete_Some in H1 as [_ H1].
    apply lookup_delete_Some in H2 as [_ H2].
    exact (Uc k1 k2 r1 r2 H1 H2).
Qed.

Lemma add_generation_keeps_sound uid fresh v now db db' :
  sound db -> insert_quote_generations uid fresh v now db = Some db' ->
  sound db'.
Proof.
  intros [(Ka & Kp & Kq) (Rp & Rq) Ip Uc] H.
  apply insert_quote_generations_Some in H
    as (i & u & t & it & c & _ & _ & _ & _ & _ & _ & Hp & Hq & ->).
  split; [split; [|split]|split| |]; simpl; auto.
  - apply map_Forall_insert_2; auto.
  - apply map_Forall_insert_2; auto.
Qed.

Lemma change_profile_keeps_sound uid i a now db db' :
  sound db -> update_profiles uid i a now db = Some db' -> sound db'.
Proof.
  intros Hs H. apply update_profiles_Some in H
    as [[-> _]|(old & Hold & Hu & _ & Hf & ->)]; [exact Hs|].
  destruct Hs as [(Ka & Kp & Kq) (Rp & Rq) Ip Uc].
  split; [split; [|split]|split| |]; simpl; auto.
  - apply map_Forall_insert_2; [|exact Kp]. simpl. exact (Kp i old Hold).
  - apply map_Forall_lookup. intros k r Hk. simpl in *.
    apply lookup_insert_Some in Hk as [[<- _]|[Hne Hk]].
    + exact (Rp i old Hold).
    + exact (Rp k r Hk).
  - apply map_Forall_lookup. intros k g Hk. simpl in *.
    apply lookup_insert_is_Some'. right. exact (Rq k g Hk).
  - apply map_Forall_lookup. intros k r Hk. simpl in *.
    apply lookup_insert_is_Some'. right. exact (Ip k r Hk).
  - rewrite stripe_customer_free_spec in Hf.
    intros k1 k2 r1 r2 H1 H2 Hsome Heq. simpl in *.
    apply lookup_insert_Some in H1 as [[<- <-]|[Hn1 H1]];
      apply lookup_insert_Some in H2 as [[<- <-]|[Hn2 H2]]; simpl in *.
    + reflexivity.
    + destruct (Hf Hsome k2 r2 H2) as [->|Hd]; [reflexivity|congruence].
    + rewrite Heq in Hsome.
      destruct (Hf Hsome k1 r1 H1) as [->|Hd]; [reflexivity|congruence].
    + exact (Uc k1 k2 r1 r2 H1 H2 Hsome Heq).
Qed.

(** Each statement keeps the tables sound. *)
Theorem statements_keep_schema_sound s now db db' :
  sound db -> execute s now db = Some db' -> sound db'.
Proof.
  destruct s as [new|i|uid fresh v|uid i a]; simpl; intros Hs H.
  - exact (register_keeps_sound _ _ _ _ Hs H).
  - injection H as <-. apply unregister_keeps_sound, Hs.
  - exact (add_generation_keeps_sound _ _ _ _ _ _ Hs H).
  - exact (change_profile_keeps_sound _ _ _ _ _ _ Hs H).
Qed.

Lemma empty_sound : sound empty.
Proof.
  split; [split; [|split]|split| |]; simpl; try apply map_Forall_empty.
  intros k1 k2 r1 r2 H1. simpl in H1. rewrite lookup_empty in H1.
  discriminate.
Qed.

Lemma execute_all_sound l db : sound db -> sound (execute_all l db).
Proof.
  revert db. induction l as [|[s now] l IH]; intros db Hdb; simpl;
    [exact Hdb|].
  apply IH. destruct (execute s now db) as [db'|] eqn:E; simpl.
  - exact (statements_keep_schema_sound _ _ _ _ Hdb E).
  - exact Hdb.
Qed.

(** X16: in every database reached from the empty one by registrations,
    removals of identities and the inserts and updates that the policies
    leave to callers (failed statements rolled back), the identities and
    the profiles are paired (an identity has a profile, a profile an
    identity, stored under the same identifier), every generation belongs
    to an existing profile, and no two profiles share a
    [stripe_customer_id]. *)
Theorem reachable_databases_are_sound l :
  let db := execute_all l empty in
  sound db /\
  (forall k, is_Some (auth_users db !! k) <-> is_Some (profiles db !! k)) /\
  (forall k r, profiles db !! k = Some r -> id r = k) /\
  (forall k g, quote_generations db !! k = Some g ->
     is_Some (profiles db !! qg_user_id g)).
Proof.
  cbv zeta.
  pose proof (execute_all_sound l empty empty_sound) as Hdb.
  split; [exact Hdb|].
  destruct Hdb as [(Ka & Kp & Kq) (Rp & Rq) Ip Uc].
  split; [|split].
  - intros k. split; intros [x Hx].
    + exact (Ip k x Hx).
    + exact (Rp k x Hx).
  - exact Kp.
  - exact Rq.
Qed.

End SchemaInvariants.

Section SchemaCallers.
Import Schema Policies Statements.

(** X21: removing an identity removes its profile and all its
    generations, and leaves the identities, profiles and generations of
    the others as they were. *)
Theorem delete_cascades i db :
  let db' := delete_auth_users i db in
  auth_users db' !! i = None /\
  profiles db' !! i = None /\
  (forall k g, quote_generations db' !! k = Some g -> qg_user_id g <> i) /\
  (forall k, k <> i ->
     auth_users db' !! k = auth_users db !! k /\
     profiles db' !! k = profiles db !! k) /\
  (forall k g, quote_generations db !! k = Some g -> qg_user_id g <> i ->
     quote_generations db' !! k = Some g).
Proof.
  cbv zeta. unfold delete_auth_users. simpl.
  split; [apply lookup_delete_eq|]. split; [apply lookup_delete_eq|].
  split; [|split].
  - intros k g H. apply map_lookup_filter_Some in H as [_ H]. exact H.
  - intros k Hk. split; apply lookup_delete_ne; congruence.
  - intros k g H Hu. apply map_lookup_filter_Some. auto.
Qed.

(** X20: an insert into [quote_generations] that goes through was made
    by the caller for itself ([user_id] is the caller), for a profile
    that exists, with an [input_type] that the [check] constraint
    admits, under an identifier that no generation had: the one given,
    or by default the one drawn.  It leaves [profiles] untouched,
    so no [usage_count] moves with it; the caller then reads the new row,
    whose [created_at] is the time given, or by default [now()], and what
    any other caller reads is unchanged. *)
Theorem generation_insert_is_for_self uid fresh v now db db' :
  insert_quote_generations uid fresh v now db = Some db' ->
  exists i u c,
    column_value fresh (gv_id v) = Some i /\
    gv_user_id v = Some u /\
    column_value now (gv_created_at v) = Some c /\
    (exists t, gv_input_type v = Some t /\ is_Some (input_type_of_text t)) /\
    uid = Some u /\
    is_Some (profiles db !! u) /\
    quote_generations db !! i = None /\
    auth_users db' = auth_users db /\
    profiles db' = profiles db /\
    (exists g, select_quote_generations uid db' !! i = Some g /\
               qg_id g = i /\ qg_user_id g = u /\ qg_created_at g = c) /\
    (forall other, other <> uid ->
       select_quote_generations other db'
       = select_quote_generations other db).
Proof.
  intros H. apply insert_quote_generations_Some in H
    as (i & u & t & it & c & Hi & Hv & Ht & Hit & Hc & Hu & Hp & Hq & ->).
  simpl. exists i, u, c.
  do 3 (split; [assumption|]).
  split; [exists t; rewrite Hit; eauto|].
  do 5 (split; [first [assumption|reflexivity]|]).
  unfold select_quote_generations, own_generation. simpl. split.
  - eexists. split.
    + apply map_lookup_filter_Some. split; [apply lookup_insert_eq|].
      simpl. apply bool_decide_eq_true_2, Hu.
    + repeat split.
  - intros other Ho.
    rewrite map_filter_insert_False;
      [|simpl; rewrite bool_decide_eq_true; congruence].
    rewrite (delete_id _ _ Hq). reflexivity.
Qed.

(** X19: the update policy of [profiles] tests the owner of the row and
    no column: in a sound database, the update by which the owner of a
    row sets its own [usage_count] (to any integer) and [is_subscribed]
    goes through under row-level security and writes these values. *)
Theorem owner_can_rewrite_entitlement i r n b now db :
  sound db ->
  profiles db !! i = Some r ->
  is_integer n = true ->
  exists db' r',
    update_profiles (Some i) i (entitlement_set n b) now db = Some db' /\
    profiles db' !! i = Some r' /\
    usage_count r' = n /\ is_subscribed r' = b /\
    email r' = email r /\ id r' = i.
Proof.
  intros [(Ka & Kp & Kq) _ _ Uc] Hr Hn.
  pose proof (Kp i r Hr) as Hid. simpl in Hid.
  assert (Hs : select_profiles (Some i) db !! i = Some r).
  { apply select_profiles_lookup. split; [exact Hr|congruence]. }
  unfold update_profiles. rewrite Hs. simpl. rewrite Hn. simpl.
  assert (Hf : stripe_customer_free i (stripe_customer_id r) db = true).
  { apply stripe_customer_free_spec. intros Hsome k r2 Hk.
    destruct (decide (k = i)) as [->|Hne]; [left; reflexivity|right].
    intros Heq. apply Hne. symmetry.
    exact (Uc i k r r2 Hr Hk Hsome (eq_sym Heq)). }
  rewrite Hf. eexists. eexists. split; [reflexivity|]. simpl.
  rewrite lookup_insert_eq. repeat split. exact Hid.
Qed.

End SchemaCallers.

Lemma update_stamps_and_isolates_witness :
  let db' := default MoreSamples.one_reader
               (Policies.update_profiles (Some 7%N) 7%N MoreSamples.backdated
                  2000 MoreSamples.one_reader) in
  Policies.update_profiles (Some 7%N) 7%N MoreSamples.backdated 2000
    MoreSamples.one_reader = Some db' /\
  exists r',
    Schema.profiles db' !! 7%N = Some r' /\ Schema.updated_at r' = 2000.
Proof.
  cbv zeta. split; [reflexivity|].
  destruct (update_stamps_and_isolates (Some 7%N) 7%N MoreSamples.backdated
              2000 MoreSamples.one_reader
              (default MoreSamples.one_reader
                 (Policies.update_profiles (Some 7%N) 7%N
                    MoreSamples.backdated 2000 MoreSamples.one_reader))
              eq_refl)
    as (_ & _ & _ & _ & H).
  destruct (H MoreSamples.first_profile eq_refl eq_refl)
    as (r' & Hr & _ & Hu & _).
  exists r'. split; [exact Hr|exact Hu].
Defined.

Lemma owner_can_rewrite_entitlement_witness :
  exists db' r',
    Policies.update_profiles (Some 7%N) 7%N (Policies.entitlement_set 0 true)
      2000 MoreSamples.one_reader = Some db' /\
    Schema.profiles db' !! 7%N = Some r' /\
    Schema.usage_count r' = 0 /\ Schema.is_subscribed r' = true.
Proof.
  destruct (owner_can_rewrite_entitlement 7%N MoreSamples.first_profile
              0 true 2000 MoreSamples.one_reader
              (execute_all_sound
                 [(Statements.register Samples.first_identity, 1000)]
                 Statements.empty empty_sound)
              eq_refl eq_refl)
    as (db' & r' & Hu & Hr & Hn & Hb & _).
  exists db', r'. auto.
Defined.

Lemma generation_insert_is_for_self_witness :
  let db' := default MoreSamples.one_reader
               (Policies.insert_quote_generations (Some 7%N) 1%N
                  MoreSamples.first_generation 2000 MoreSamples.one_reader) in
  Policies.insert_quote_generations (Some 7%N) 1%N
    MoreSamples.first_generation 2000 MoreSamples.one_reader = Some db' /\
  Schema.profiles db' = Schema.profiles MoreSamples.one_reader /\
  Policies.select_quote_generations (Some 8%N) db' = ∅.
Proof.
  cbv zeta. split; [reflexivity|].
  destruct (generation_insert_is_for_self (Some 7%N) 1%N
              MoreSamples.first_generation 2000 MoreSamples.one_reader
              (default MoreSamples.one_reader
                 (Policies.insert_quote_generations (Some 7%N) 1%N
                    MoreSamples.first_generation 2000 MoreSamples.one_reader))
              eq_refl)
    as (i & u & c & _ & _ & _ & _ & _ & _ & _ & _ & Hp & _ & Ho).
  split; [exact Hp|].
  rewrite (Ho (Some 8%N)) by discriminate. reflexivity.
Defined.
